(** * NEOBOOK: the social data store and its three storage back ends

    A shallow embedding of the storage services of the NEOBOOK prototype
    and of the feed component that reads and writes posts through them.

    The repository holds three implementations of [StorageService]:
    - [Sync]       the synchronous service over [localStorage]
                   (createPost with the 50-post limit, sendMessage with the
                   500-message limit, updateUser with the handle check);
    - [AsyncLocal] the promise-returning service over [localStorage]
                   (login, signup, checkIdAvailability, deleteUser);
    - [Firebase]   the Firestore-backed service (services/storage.ts).

    JavaScript arrays are lists, [Array.prototype.find]/[findIndex] are
    stdpp's [list_find], objects mutated through a reference taken out of an
    array are updated in place with [alter], a Firestore collection is a
    finite map from document ids to documents.  [Date.now()] and
    [Math.random()] are inputs of the operations that read them.  A write to
    [localStorage] may be refused (quota); whether a content fits is a
    parameter [quota] of the two local services. *)

From Stdlib Require Import ZArith NArith DecimalString.
From stdpp Require Import base option list gmap strings.
From stdpp Require Import sorting.

Open Scope string_scope.
Open Scope list_scope.
Open Scope nat_scope.

(** ** Data model (types.ts) *)

Inductive Status := online | offline | busy.

Module User.
Record t := mk {
  id : string;
  userId : string;
  username : string;
  password : option string;
  name : string;
  email : option string;
  avatar : string;
  coverPhoto : string;
  bio : string;
  joinedAt : N;
  friends : list string;
  friendRequests : list string;
  isAdmin : option bool;
  status : Status
}.

Definition set_friends (u : t) (fs : list string) : t :=
  mk (id u) (userId u) (username u) (password u) (name u) (email u)
     (avatar u) (coverPhoto u) (bio u) (joinedAt u) fs (friendRequests u)
     (isAdmin u) (status u).

Definition set_friendRequests (u : t) (rs : list string) : t :=
  mk (id u) (userId u) (username u) (password u) (name u) (email u)
     (avatar u) (coverPhoto u) (bio u) (joinedAt u) (friends u) rs
     (isAdmin u) (status u).

Definition set_id (u : t) (i : string) : t :=
  mk i (userId u) (username u) (password u) (name u) (email u)
     (avatar u) (coverPhoto u) (bio u) (joinedAt u) (friends u)
     (friendRequests u) (isAdmin u) (status u).

Definition set_password (u : t) (pw : option string) : t :=
  mk (id u) (userId u) (username u) pw (name u) (email u)
     (avatar u) (coverPhoto u) (bio u) (joinedAt u) (friends u)
     (friendRequests u) (isAdmin u) (status u).
End User.

Module Comment.
Record t := mk {
  id : string;
  authorId : string;
  content : string;
  createdAt : N
}.
End Comment.

Module Post.
Record t := mk {
  id : string;
  authorId : string;
  content : string;
  image : option string;
  likes : list string;
  comments : list Comment.t;
  createdAt : N;
  sharedFromId : option string;
  targetUserIds : option (list string)
}.

Definition set_likes (p : t) (ls : list string) : t :=
  mk (id p) (authorId p) (content p) (image p) ls (comments p)
     (createdAt p) (sharedFromId p) (targetUserIds p).

Definition set_targetUserIds (p : t) (ts : option (list string)) : t :=
  mk (id p) (authorId p) (content p) (image p) (likes p) (comments p)
     (createdAt p) (sharedFromId p) ts.

Definition set_comments (p : t) (cs : list Comment.t) : t :=
  mk (id p) (authorId p) (content p) (image p) (likes p) cs
     (createdAt p) (sharedFromId p) (targetUserIds p).
End Post.

Module Message.
Record t := mk {
  id : string;
  fromId : string;
  toId : string;
  content : string;
  timestamp : N;
  read : bool
}.

Definition set_id (m : t) (i : string) : t :=
  mk i (fromId m) (toId m) (content m) (timestamp m) (read m).
End Message.

(** ** JavaScript helpers *)

(** [`${n}`] for a non-negative integer [n] such as [Date.now()]. *)
Definition showNum (n : N) : string := NilZero.string_of_uint (N.to_uint n).

(** [arr.includes(x)] on an array of strings. *)
Definition includes (l : list string) (x : string) : bool :=
  bool_decide (x ∈ l).

(** [arr.find(pred)] and [arr.findIndex(pred)]. *)
Definition find {A} (P : A → Prop) `{∀ x, Decision (P x)} (l : list A)
  : option A := snd <$> list_find P l.

Definition findIndex {A} (P : A → Prop) `{∀ x, Decision (P x)} (l : list A)
  : option nat := fst <$> list_find P l.

(** [arr.sort(cmp)].  The sort is stable; [le a b] stands for
    [cmp(a, b) <= 0].  For a comparator that orders by a numeric key the
    stable arrangement is unique; it is computed here by inserting each
    element, from the last to the first, in front of the first element it
    does not exceed. *)
Fixpoint insertBy {A} (le : A → A → bool) (x : A) (l : list A) : list A :=
  match l with
  | [] => [x]
  | y :: l' => if le x y then x :: y :: l' else y :: insertBy le x l'
  end.

Definition sortBy {A} (le : A → A → bool) (l : list A) : list A :=
  foldr (insertBy le) [] l.

(** The filter of a conversation: the messages exchanged, in either
    direction, between [a] and [b]. *)
Definition between (a b : string) (m : Message.t) : Prop :=
  (Message.fromId m = a ∧ Message.toId m = b)
  ∨ (Message.fromId m = b ∧ Message.toId m = a).

Global Instance between_dec (a b : string) (m : Message.t)
  : Decision (between a b m).
Proof. unfold between. apply _. Defined.

(** A settled promise: the value it resolves with, or the message of the
    [Error] it rejects with. *)
Inductive Promise (A : Type) :=
  | Resolved (a : A)
  | Rejected (e : string).
Arguments Resolved {A} a.
Arguments Rejected {A} e.

(** The text of the message announcing a friendship. *)
Definition friendshipText (requesterName : string) : string :=
  "You are now friends with " +:+ requesterName +:+ ". Start chatting now!".

(** ** The synchronous service over localStorage *)

Module Sync.

(** The four items of [KEYS].  An absent array item reads as [[]]
    ([JSON.parse(getItem(k) || '[]')]); the session item holds a copy of
    the signed-in user's record. *)
Record LocalStorage := mkLS {
  neobook_users : list User.t;
  neobook_posts : list Post.t;
  neobook_messages : list Message.t;
  neobook_session : option User.t
}.

Definition set_users (st : LocalStorage) (v : list User.t) :=
  mkLS v (neobook_posts st) (neobook_messages st) (neobook_session st).
Definition set_posts (st : LocalStorage) (v : list Post.t) :=
  mkLS (neobook_users st) v (neobook_messages st) (neobook_session st).
Definition set_messages (st : LocalStorage) (v : list Message.t) :=
  mkLS (neobook_users st) (neobook_posts st) v (neobook_session st).
Definition set_session (st : LocalStorage) (v : option User.t) :=
  mkLS (neobook_users st) (neobook_posts st) (neobook_messages st) v.

Section Service.
(** [quota st] tells whether the browser accepts the content [st]. *)
Variable quota : LocalStorage → bool.

(** [safeSetItem]: [st'] is [st] with the item replaced; on a refused
    write the exception is caught, nothing changes and [false] is
    returned. *)
Definition safeSetItem (st st' : LocalStorage) : LocalStorage * bool :=
  if quota st' then (st', true) else (st, false).

Definition getUsers (st : LocalStorage) := neobook_users st.
Definition saveUsers (st : LocalStorage) (users : list User.t) :=
  safeSetItem st (set_users st users).
Definition getPosts (st : LocalStorage) := neobook_posts st.
Definition savePosts (st : LocalStorage) (posts : list Post.t) :=
  safeSetItem st (set_posts st posts).
Definition getMessages (st : LocalStorage) := neobook_messages st.
Definition saveMessages (st : LocalStorage) (msgs : list Message.t) :=
  safeSetItem st (set_messages st msgs).
Definition getCurrentUser (st : LocalStorage) := neobook_session st.

Definition setCurrentUser (st : LocalStorage) (user : option User.t)
  : LocalStorage :=
  match user with
  | Some u => fst (safeSetItem st (set_session st (Some u)))
  | None => set_session st None
  end.

Definition findUserById (st : LocalStorage) (uuid : string) :=
  find (λ u, User.id u = uuid) (getUsers st).

Definition findUserByCustomId (st : LocalStorage) (customId : string) :=
  find (λ u, User.userId u = customId) (getUsers st).

Definition createUser (st : LocalStorage) (user : User.t)
  : LocalStorage * bool :=
  let users := getUsers st in
  if bool_decide (Exists (λ u, User.userId u = User.userId user) users)
  then (st, false)
  else saveUsers st (users ++ [user]).

Definition updateUser (st : LocalStorage) (updatedUser : User.t)
  : LocalStorage * bool :=
  let users := getUsers st in
  let existing :=
    find (λ u, User.userId u = User.userId updatedUser
               ∧ User.id u ≠ User.id updatedUser) users in
  match existing with
  | Some _ => (st, false)
  | None =>
      let users :=
        (λ u, if bool_decide (User.id u = User.id updatedUser)
              then updatedUser else u) <$> users in
      let '(st, saved) := saveUsers st users in
      if saved then (setCurrentUser st (Some updatedUser), true)
      else (st, false)
  end.

(** [posts.pop()] drops the last element, [posts.unshift(post)] puts
    [post] in front. *)
Definition createPost (st : LocalStorage) (post : Post.t) : LocalStorage :=
  let posts := getPosts st in
  let posts := if (50 <? length posts)%nat then removelast posts else posts in
  let posts := post :: posts in
  fst (savePosts st posts).

(** [user] and [requester] are references into [users] (the same object
    when the two ids are equal); the pushes and the assignment to
    [friendRequests] update the array in place. *)
Definition acceptFriendRequest (st : LocalStorage)
    (userId requesterId : string) (now : N) : LocalStorage :=
  let users := getUsers st in
  match list_find (λ u, User.id u = userId) users,
        list_find (λ u, User.id u = requesterId) users with
  | Some (ui, user0), Some (ri, requester0) =>
      let users :=
        alter (λ u, User.set_friends u (User.friends u ++ [requesterId]))
              ui users in
      let users :=
        alter (λ u, User.set_friends u (User.friends u ++ [userId]))
              ri users in
      let users :=
        alter (λ u, User.set_friendRequests u
                 (filter (λ i, i ≠ requesterId) (User.friendRequests u)))
              ui users in
      let user := default user0 (users !! ui) in
      let requester := default requester0 (users !! ri) in
      let st := fst (saveUsers st users) in
      let messages := getMessages st in
      let timestamp := now in
      let messages := messages ++
        [Message.mk ("sys-" +:+ showNum timestamp +:+ "-1")
           requesterId userId (friendshipText (User.name requester))
           timestamp false] in
      let st := fst (saveMessages st messages) in
      match getCurrentUser st with
      | Some currentUser =>
          if bool_decide (User.id currentUser = userId)
          then setCurrentUser st (Some user) else st
      | None => st
      end
  | _, _ => st
  end.

(** [messages.splice(0, 100)] removes the first hundred elements. *)
Definition sendMessage (st : LocalStorage) (msg : Message.t)
  : LocalStorage :=
  let messages := getMessages st in
  let messages := messages ++ [msg] in
  let messages :=
    if (500 <? length messages)%nat then drop 100 messages else messages in
  fst (saveMessages st messages).
(** [target] is a reference into [users]; the push updates the array in
    place.  The result of [saveUsers] is not looked at. *)
Definition sendFriendRequest (st : LocalStorage) (fromId toCustomId : string)
  : LocalStorage * (bool * string) :=
  let users := getUsers st in
  let target := list_find (λ u, User.userId u = toCustomId) users in
  let sender := find (λ u, User.id u = fromId) users in
  match target with
  | None => (st, (false, "User ID not found."))
  | Some (ti, target) =>
      match sender with
      | None => (st, (false, "Session error."))
      | Some sender =>
          if bool_decide (User.id target = fromId)
          then (st, (false, "Cannot add yourself."))
          else if includes (User.friends sender) (User.id target)
          then (st, (false, "Already friends."))
          else if includes (User.friendRequests target) fromId
          then (st, (false, "Request already sent."))
          else
            let users :=
              alter (λ u, User.set_friendRequests u
                            (User.friendRequests u ++ [fromId])) ti users in
            (fst (saveUsers st users), (true, "Friend request sent!"))
      end
  end.
End Service.
End Sync.

(** ** The promise-returning service over localStorage *)

Module AsyncLocal.

(** The session item holds the id of the signed-in user. *)
Record LocalStorage := mkLS {
  neobook_users : list User.t;
  neobook_posts : list Post.t;
  neobook_messages : list Message.t;
  neobook_session : option string
}.

Definition set_users (st : LocalStorage) (v : list User.t) :=
  mkLS v (neobook_posts st) (neobook_messages st) (neobook_session st).
Definition set_posts (st : LocalStorage) (v : list Post.t) :=
  mkLS (neobook_users st) v (neobook_messages st) (neobook_session st).
Definition set_messages (st : LocalStorage) (v : list Message.t) :=
  mkLS (neobook_users st) (neobook_posts st) v (neobook_session st).
Definition set_session (st : LocalStorage) (v : option string) :=
  mkLS (neobook_users st) (neobook_posts st) (neobook_messages st) v.

(** The message of the [Error] thrown by [setStored]. *)
Definition storageFull : string :=
  "Storage full. Please delete some posts or images.".

Section Service.
Variable quota : LocalStorage → bool.

(** [setStored]: [None] stands for the thrown [Error]. *)
Definition setStored (st' : LocalStorage) : option LocalStorage :=
  if quota st' then Some st' else None.

Definition login (st : LocalStorage) (userId password : string)
  : LocalStorage * Promise User.t :=
  let users := neobook_users st in
  let user :=
    find (λ u, User.userId u = userId ∧ User.password u = Some password)
         users in
  let found := find (λ u, User.userId u = userId) users in
  match found with
  | None => (st, Rejected "User not found")
  | Some found =>
      match setStored (set_session st (Some (User.id found))) with
      | Some st => (st, Resolved found)
      | None => (st, Rejected storageFull)
      end
  end.

Definition getUser (st : LocalStorage) (uid : string) : option User.t :=
  find (λ u, User.id u = uid) (neobook_users st).

(** [users[index] = updatedUser]; an exception of [setStored] is caught
    and turned into [false]. *)
Definition updateUser (st : LocalStorage) (updatedUser : User.t)
  : LocalStorage * bool :=
  let users := neobook_users st in
  match findIndex (λ u, User.id u = User.id updatedUser) users with
  | Some index =>
      let users := <[index := updatedUser]> users in
      match setStored (set_users st users) with
      | Some st => (st, true)
      | None => (st, false)
      end
  | None => (st, false)
  end.

Definition checkIdAvailability (st : LocalStorage) (userId : string)
    (currentUid : option string) : bool :=
  match find (λ u, User.userId u = userId) (neobook_users st) with
  | None => true
  | Some found =>
      match currentUid with
      | Some c => bool_decide (c ≠ "" ∧ User.id found = c)
      | None => false
      end
  end.

Definition createPost (st : LocalStorage) (post : Post.t)
  : LocalStorage * bool :=
  let posts := neobook_posts st in
  let posts := post :: posts in
  match setStored (set_posts st posts) with
  | Some st => (st, true)
  | None => (st, false)
  end.

(** [now] and [rnd] are [Date.now()] and the text of [Math.random()],
    read only when the message has no id. *)
Definition sendMessage (st : LocalStorage) (msg : Message.t)
    (now : N) (rnd : string) : LocalStorage * Promise unit :=
  let msgs := neobook_messages st in
  let msg :=
    if bool_decide (Message.id msg = "")
    then Message.set_id msg ("msg-" +:+ showNum now +:+ "-" +:+ rnd)
    else msg in
  let msgs := msgs ++ [msg] in
  match setStored (set_messages st msgs) with
  | Some st => (st, Resolved ())
  | None => (st, Rejected storageFull)
  end.

(** [t1] and [t2] are the two readings of [Date.now()], for the id and
    for the timestamp of the message.  The message handed to
    [sendMessage] has an id, so that call reads no clock. *)
Definition acceptFriendRequest (st : LocalStorage)
    (userId requesterId : string) (t1 t2 : N)
  : LocalStorage * Promise unit :=
  let users := neobook_users st in
  match findIndex (λ u, User.id u = userId) users,
        findIndex (λ u, User.id u = requesterId) users with
  | Some userIdx, Some reqIdx =>
      let users :=
        alter (λ u, if includes (User.friends u) requesterId then u
                    else User.set_friends u (User.friends u ++ [requesterId]))
              userIdx users in
      let users :=
        alter (λ u, if includes (User.friends u) userId then u
                    else User.set_friends u (User.friends u ++ [userId]))
              reqIdx users in
      let users :=
        alter (λ u, User.set_friendRequests u
                 (filter (λ i, i ≠ requesterId) (User.friendRequests u)))
              userIdx users in
      match setStored (set_users st users) with
      | None => (st, Rejected storageFull)
      | Some st =>
          let requesterName :=
            from_option User.name "" (users !! reqIdx) in
          let msg :=
            Message.mk ("sys-" +:+ showNum t1) requesterId userId
              (friendshipText requesterName) t2 false in
          sendMessage st msg t2 ""
      end
  | _, _ => (st, Resolved ())
  end.

Definition deletePost (st : LocalStorage) (postId : string)
  : LocalStorage * Promise unit :=
  let newPosts := filter (λ p, Post.id p ≠ postId) (neobook_posts st) in
  match setStored (set_posts st newPosts) with
  | Some st => (st, Resolved ())
  | None => (st, Rejected storageFull)
  end.

Definition deleteUser (st : LocalStorage) (uid : string)
  : LocalStorage * Promise unit :=
  let users := neobook_users st in
  let users := filter (λ u, User.id u ≠ uid) users in
  match setStored (set_users st users) with
  | Some st => (st, Resolved ())
  | None => (st, Rejected storageFull)
  end.
(** [{ ...user, id: `user-${Date.now()}`, password }], stored, then made the
    session.  The two writes are separate: the first may be kept while the
    second is refused. *)
Definition signup (st : LocalStorage) (user : User.t) (password : string)
    (now : N) : LocalStorage * Promise User.t :=
  let users := neobook_users st in
  match find (λ u, User.userId u = User.userId user) users with
  | Some _ => (st, Rejected "User ID already taken")
  | None =>
      let newUser :=
        User.set_password (User.set_id user ("user-" +:+ showNum now))
          (Some password) in
      let users := users ++ [newUser] in
      match setStored (set_users st users) with
      | None => (st, Rejected storageFull)
      | Some st =>
          match setStored (set_session st (Some (User.id newUser))) with
          | None => (st, Rejected storageFull)
          | Some st => (st, Resolved newUser)
          end
      end
  end.

(** [localStorage.removeItem(KEYS.SESSION)]. *)
Definition logout (st : LocalStorage) : LocalStorage :=
  set_session st None.

(** The user handed to the callback when [observeAuth] is called: the
    stored user whose id is the session, or [null]. *)
Definition observeAuth (st : LocalStorage) : option User.t :=
  match neobook_session st with
  | Some session =>
      if bool_decide (session = "") then None
      else find (λ u, User.id u = session) (neobook_users st)
  | None => None
  end.

Definition findUserByCustomId (st : LocalStorage) (customId : string)
  : option User.t :=
  find (λ u, User.userId u = customId) (neobook_users st).

(** [target] is a reference into [users]: the push updates the array in
    place, and [users[targetIdx] = target] stores the same object at the
    first index holding its id. *)
Definition sendFriendRequest (st : LocalStorage) (fromId toCustomId : string)
  : LocalStorage * Promise (bool * string) :=
  let users := neobook_users st in
  let sender := find (λ u, User.id u = fromId) users in
  let target := list_find (λ u, User.userId u = toCustomId) users in
  match sender, target with
  | Some sender, Some (ti, target) =>
      if bool_decide (User.id sender = User.id target)
      then (st, Resolved (false, "Can't add yourself"))
      else if includes (User.friends sender) (User.id target)
      then (st, Resolved (false, "Already friends"))
      else if includes (User.friendRequests target) fromId
      then (st, Resolved (false, "Request already sent"))
      else
        let target :=
          User.set_friendRequests target
            (User.friendRequests target ++ [fromId]) in
        let users := <[ti := target]> users in
        let users :=
          match findIndex (λ u, User.id u = User.id target) users with
          | Some targetIdx => <[targetIdx := target]> users
          | None => users
          end in
        match setStored (set_users st users) with
        | Some st => (st, Resolved (true, "Request sent!"))
        | None => (st, Rejected storageFull)
        end
  | _, _ => (st, Resolved (false, "User not found"))
  end.

(** What [subscribeToPosts] hands to its callback at each load: the stored
    posts, newest first. *)
Definition subscribeToPosts (st : LocalStorage) : list Post.t :=
  sortBy (λ a b, (Post.createdAt b <=? Post.createdAt a)%N)
    (neobook_posts st).


Definition getAllUsers (st : LocalStorage) : list User.t := neobook_users st.
End Service.
End AsyncLocal.

(** ** The Firestore-backed service (services/storage.ts) *)

Module Firebase.

(** The three collections, each a map from document id to document. *)
Record Firestore := mkDB {
  users : gmap string User.t;
  posts : gmap string Post.t;
  messages : gmap string Message.t
}.

Definition set_users (db : Firestore) (v : gmap string User.t) :=
  mkDB v (posts db) (messages db).
Definition set_posts (db : Firestore) (v : gmap string Post.t) :=
  mkDB (users db) v (messages db).
Definition set_messages (db : Firestore) (v : gmap string Message.t) :=
  mkDB (users db) (posts db) v.

(** Firestore's field transforms: [arrayUnion] adds an element that is not
    in the array yet, [arrayRemove] removes every occurrence. *)
Definition arrayUnion (x : string) (l : list string) : list string :=
  if includes l x then l else l ++ [x].

Definition arrayRemove (x : string) (l : list string) : list string :=
  filter (λ y, y ≠ x) l.

(** [updateDoc(doc(db, 'users', uid), fields)]: fails ([None]) when the
    document does not exist. *)
Definition updateDoc (db : Firestore) (uid : string)
    (fields : User.t → User.t) : option Firestore :=
  match users db !! uid with
  | Some u => Some (set_users db (<[uid := fields u]> (users db)))
  | None => None
  end.

(** The fields of [{ ...updatedUser }] written over document [old]: an
    optional property that is absent leaves the stored field as it is. *)
Definition assign (updatedUser old : User.t) : User.t :=
  User.mk (User.id updatedUser) (User.userId updatedUser)
    (User.username updatedUser)
    (match User.password updatedUser with
     | Some p => Some p | None => User.password old end)
    (User.name updatedUser)
    (match User.email updatedUser with
     | Some e => Some e | None => User.email old end)
    (User.avatar updatedUser) (User.coverPhoto updatedUser)
    (User.bio updatedUser) (User.joinedAt updatedUser)
    (User.friends updatedUser) (User.friendRequests updatedUser)
    (match User.isAdmin updatedUser with
     | Some a => Some a | None => User.isAdmin old end)
    (User.status updatedUser).

Definition getUser (db : Firestore) (uid : string) : option User.t :=
  users db !! uid.

Definition updateUser (db : Firestore) (updatedUser : User.t)
  : Firestore * bool :=
  match updateDoc db (User.id updatedUser) (assign updatedUser) with
  | Some db => (db, true)
  | None => (db, false)
  end.

(** [addDoc]: the document is stored under the id [autoId] that Firestore
    generates. *)
Definition addDoc (db : Firestore) (autoId : string) (msg : Message.t)
  : Firestore :=
  set_messages db (<[autoId := msg]> (messages db)).

(** The promise always resolves; the boolean tells whether the [catch]
    branch ran ([console.error]).  A write made before the failing step
    stays. *)
Definition acceptFriendRequest (db : Firestore)
    (userId requesterId : string) (t1 t2 : N) (autoId : string)
  : Firestore * bool :=
  match updateDoc db userId
          (λ u, User.set_friendRequests
                  (User.set_friends u (arrayUnion requesterId (User.friends u)))
                  (arrayRemove requesterId (User.friendRequests u))) with
  | None => (db, true)
  | Some db =>
      match updateDoc db requesterId
              (λ u, User.set_friends u (arrayUnion userId (User.friends u)))
      with
      | None => (db, true)
      | Some db =>
          match users db !! requesterId with
          | None => (db, true)
          | Some requester =>
              let msg :=
                Message.mk ("sys-" +:+ showNum t1) requesterId userId
                  (friendshipText (User.name requester)) t2 false in
              (addDoc db autoId msg, false)
          end
      end
  end.

(** [setDoc(doc(db, 'posts', post.id), post)] creates or overwrites.  This is
    [createPost] on data that has no property whose value is [undefined],
    such as a stored document spread again. *)
Definition createPost (db : Firestore) (post : Post.t) : Firestore * bool :=
  (set_posts db (<[Post.id post := post]> (posts db)), true).

(** [createPost] on an object that may have a property whose value is
    [undefined].  [setDoc] throws on such data (the service keeps the
    default settings of Firestore); the exception is caught, nothing is
    written and the answer is [false].  A [Post.t] does not tell an absent
    property from an undefined one, so [hasUndefined] says whether the
    object has one. *)
Definition createPostOf (db : Firestore) (post : Post.t)
    (hasUndefined : bool) : Firestore * bool :=
  if hasUndefined then (db, false) else createPost db post.

Definition sendMessage (db : Firestore) (msg : Message.t) (autoId : string)
  : Firestore :=
  addDoc db autoId msg.
End Firebase.

(** ** The feed component (components/Feed/Feed.tsx) *)

Module Feed.

(** The predicate of the filter applied to every delivery of
    [subscribeToPosts]. *)
Definition visible (currentUser : User.t) (p : Post.t) : bool :=
  match Post.targetUserIds p with
  | None => true
  | Some targetUserIds =>
      (length targetUserIds =? 0)
      || includes targetUserIds (User.id currentUser)
      || bool_decide (Post.authorId p = User.id currentUser)
  end.

Definition visiblePosts (currentUser : User.t) (allPosts : list Post.t)
  : list Post.t :=
  List.filter (visible currentUser) allPosts.

(** The post built by [handleSharePost]; [t1] and [t2] are the two
    readings of [Date.now()]. *)
Definition newPost (currentUser : User.t) (postToShare : Post.t)
    (shareCaption : string) (selectedFriends : list string) (t1 t2 : N)
  : Post.t :=
  Post.mk ("post-share-" +:+ showNum t1) (User.id currentUser) shareCaption
    None [] [] t2 (Some (Post.id postToShare))
    (if 0 <? length selectedFriends then Some selectedFriends else None).

(** The object literal of [newPost] has
    [targetUserIds: selectedFriends.length > 0 ? selectedFriends : undefined]:
    with no friend selected the property is there and undefined. *)
Definition handleSharePost (db : Firebase.Firestore) (currentUser : User.t)
    (postToShare : option Post.t) (shareCaption : string)
    (selectedFriends : list string) (t1 t2 : N) : Firebase.Firestore :=
  match postToShare with
  | None => db
  | Some p =>
      fst (Firebase.createPostOf db
             (newPost currentUser p shareCaption selectedFriends t1 t2)
             (negb (0 <? length selectedFriends)))
  end.

Definition updatedLikes (currentUser : User.t) (post : Post.t)
  : list string :=
  let isLiked := includes (Post.likes post) (User.id currentUser) in
  if isLiked
  then filter (λ i, i ≠ User.id currentUser) (Post.likes post)
  else Post.likes post ++ [User.id currentUser].

Definition handleLike (db : Firebase.Firestore) (currentUser : User.t)
    (post : Post.t) : Firebase.Firestore :=
  fst (Firebase.createPost db
         (Post.set_likes post (updatedLikes currentUser post))).
(** [selectedFriends] after a click on [friendId] in the share dialog. *)
Definition toggleFriendSelection (selectedFriends : list string)
    (friendId : string) : list string :=
  if includes selectedFriends friendId
  then filter (λ i, i ≠ friendId) selectedFriends
  else selectedFriends ++ [friendId].

Section Comments.
(** [String.prototype.trim]. *)
Variable trim : string → string.

(** [t1] and [t2] are the two readings of [Date.now()]. *)
Definition handleComment (db : Firebase.Firestore) (currentUser : User.t)
    (post : Post.t) (commentText : string) (t1 t2 : N)
  : Firebase.Firestore :=
  if bool_decide (trim commentText = "") then db
  else
    let newComment :=
      Comment.mk ("c-" +:+ showNum t1) (User.id currentUser) commentText t2 in
    fst (Firebase.createPost db
           (Post.set_comments post (Post.comments post ++ [newComment]))).
End Comments.
End Feed.

(** ** The components over the synchronous service *)

(** The feed written against the synchronous service. *)
Module SyncFeed.
Section Component.
Variable quota : Sync.LocalStorage → bool.
Variable trim : string → string.

(** [visiblePosts] of [loadData]. *)
Definition loadData (st : Sync.LocalStorage) (currentUser : User.t)
  : list Post.t :=
  List.filter (Feed.visible currentUser) (Sync.getPosts st).

(** Every stored post with the id of [post] is replaced by the updated
    snapshot. *)
Definition handleLike (st : Sync.LocalStorage) (currentUser : User.t)
    (post : Post.t) : Sync.LocalStorage :=
  let updatedPost := Post.set_likes post (Feed.updatedLikes currentUser post) in
  let allPosts := Sync.getPosts st in
  let newAllPosts :=
    (λ p, if bool_decide (Post.id p = Post.id post) then updatedPost else p)
      <$> allPosts in
  fst (Sync.savePosts quota st newAllPosts).

(** [allPosts[postIndex].comments.push(newComment)] on the first post with
    that id. *)
Definition handleComment (st : Sync.LocalStorage) (currentUser : User.t)
    (postId commentText : string) (t1 t2 : N) : Sync.LocalStorage :=
  if bool_decide (trim commentText = "") then st
  else
    let allPosts := Sync.getPosts st in
    match findIndex (λ p, Post.id p = postId) allPosts with
    | None => st
    | Some postIndex =>
        let newComment :=
          Comment.mk ("c-" +:+ showNum t1) (User.id currentUser)
            commentText t2 in
        let allPosts :=
          alter (λ p, Post.set_comments p (Post.comments p ++ [newComment]))
                postIndex allPosts in
        fst (Sync.savePosts quota st allPosts)
    end.

Definition getPost (st : Sync.LocalStorage) (id : string) : option Post.t :=
  find (λ p, Post.id p = id) (Sync.getPosts st).
End Component.
End SyncFeed.

(** The chat written against the synchronous service (the messages of
    [loadData] and the last message shown in the list of friends). *)
Module Chat.

(** [filter(...).sort((a, b) => b.timestamp - a.timestamp)[0]]. *)
Definition lastMsg (st : Sync.LocalStorage) (currentUser : User.t)
    (friend : User.t) : option Message.t :=
  let allMessages := Sync.getMessages st in
  head (sortBy (λ a b, (Message.timestamp b <=? Message.timestamp a)%N)
          (filter (between (User.id currentUser) (User.id friend))
             allMessages)).
End Chat.

(** The sign-in form written against the synchronous service. *)
Module Auth.
(** The user passed to [onLogin], or [None] for the error "Invalid
    credentials". *)
Definition login (st : Sync.LocalStorage) (userId password : string)
  : option User.t :=
  find (λ u, User.userId u = userId ∧ User.password u = Some password)
       (Sync.getUsers st).
End Auth.

(** The friends page written against the promise-returning services: the
    users behind the ids of [loadData], an id that resolves to no user
    being dropped ([filter(u => !!u)]). *)
Module Friends.
Definition friendRequests (st : AsyncLocal.LocalStorage)
    (currentUser : User.t) : list User.t :=
  omap (AsyncLocal.getUser st) (User.friendRequests currentUser).

Definition myFriends (st : AsyncLocal.LocalStorage) (currentUser : User.t)
  : list User.t :=
  omap (AsyncLocal.getUser st) (User.friends currentUser).
End Friends.

(** ** Reading the social graph *)

(** The [friends] and [friendRequests] arrays of the user with id [a], as
    every service reads them: the first record with that id in the array of
    a local store, the document with that id in Firestore. *)
Definition friendsOf (users : list User.t) (a : string)
  : option (list string) :=
  User.friends <$> find (λ u, User.id u = a) users.

Definition requestsOf (users : list User.t) (a : string)
  : option (list string) :=
  User.friendRequests <$> find (λ u, User.id u = a) users.

Definition friendsOfDoc (users : gmap string User.t) (a : string)
  : option (list string) :=
  User.friends <$> users !! a.

Definition requestsOfDoc (users : gmap string User.t) (a : string)
  : option (list string) :=
  User.friendRequests <$> users !! a.

(** The message that [acceptFriendRequest] stores in the synchronous service
    (one clock reading), and in the two asynchronous ones (two readings). *)
Definition announcementSync (requesterId userId requesterName : string)
    (now : N) : Message.t :=
  Message.mk ("sys-" +:+ showNum now +:+ "-1") requesterId userId
    (friendshipText requesterName) now false.

Definition announcement (requesterId userId requesterName : string)
    (t1 t2 : N) : Message.t :=
  Message.mk ("sys-" +:+ showNum t1) requesterId userId
    (friendshipText requesterName) t2 false.

(** ** Sample records *)

Module Samples.
Definition mkUser (id userId name : string) (password : option string)
    (friends friendRequests : list string) : User.t :=
  User.mk id userId name password name None "" "" "" 0%N
    friends friendRequests None online.

Definition alice := mkUser "u-alice" "alice1" "Alice" (Some "pw") [] [].
Definition bob := mkUser "u-bob" "bob1" "Bob" (Some "123") [] ["u-alice"].
Definition carol := mkUser "u-carol" "carol1" "Carol" None ["u-bob"] [].

Definition mkPost (id authorId : string) (sharedFromId : option string)
    (likes : list string) : Post.t :=
  Post.mk id authorId "" None likes [] 0%N sharedFromId None.

Definition mkMessage (id : string) : Message.t :=
  Message.mk id "u-alice" "u-bob" "hi" 0%N false.

(** A browser that accepts every write. *)
Definition roomy {S : Type} (st : S) : bool := true.

Definition syncStore : Sync.LocalStorage :=
  Sync.mkLS [alice; bob; carol] [] [] (Some bob).

Definition asyncStore : AsyncLocal.LocalStorage :=
  AsyncLocal.mkLS [alice; bob; carol] [] [] None.

Definition fireStore : Firebase.Firestore :=
  Firebase.mkDB
    (<["u-alice" := alice]> (<["u-bob" := bob]> (<["u-carol" := carol]> ∅)))
    ∅ ∅.

(** Bob's record after he edits his handle into Alice's. *)
Definition bobAsAlice :=
  mkUser "u-bob" "alice1" "Bob" (Some "123") [] ["u-alice"].

(** The n-th post created in a session that starts at time 1700000000000. *)
Definition postN (n : nat) : Post.t :=
  mkPost ("post-" +:+ showNum (1700000000000 + N.of_nat n)) "u-alice" None [].

Definition emptySync : Sync.LocalStorage := Sync.mkLS [] [] [] None.

(** The store right after [seedData]: the welcome post only. *)
Definition initialPost : Post.t :=
  Post.mk "post-1" "admin-uuid"
    "Welcome to NEOBOOK! This is the future of social connection."
    (Some "https://picsum.photos/600/400") [] [] 1700000000000%N None None.

Definition seededSync : Sync.LocalStorage :=
  Sync.mkLS [] [initialPost] [] None.

Definition createPosts (st : Sync.LocalStorage) (ps : list Post.t)
  : Sync.LocalStorage :=
  foldl (Sync.createPost roomy) st ps.

(** A store that already holds 500 messages. *)
Definition fullAsync : AsyncLocal.LocalStorage :=
  AsyncLocal.mkLS [] [] (replicate 500 (mkMessage "m-old")) None.

(** An original post of Alice, and Bob's share of it. *)
Definition root : Post.t := mkPost "post-root" "u-alice" None [].
Definition share : Post.t :=
  mkPost "post-share-1" "u-bob" (Some "post-root") [].

(** A synchronous store holding an original post and a share of it. *)
Definition feedStore : Sync.LocalStorage :=
  Sync.mkLS [alice; bob; carol]
    [mkPost "post-share-1" "u-bob" (Some "post-root") [];
     mkPost "post-root" "u-alice" None []] [] None.

(** A browser with no room left for the session item. *)
Definition noSession (st : AsyncLocal.LocalStorage) : bool :=
  bool_decide (AsyncLocal.neobook_session st = None).

(** The record the sign-up form hands to [signup]. *)
Definition dave := mkUser "" "dave1" "Dave" (Some "pw0") [] [].

(** [root] after Carol pressed the like button once, and twice. *)
Definition likedOnce : Post.t :=
  Post.set_likes root (Feed.updatedLikes carol root).
Definition likedTwice : Post.t :=
  Post.set_likes likedOnce (Feed.updatedLikes carol likedOnce).
End Samples.

(** * Properties *)

(** ** Lookups in arrays *)

Section Lookups.
Context {A : Type} (P : A → Prop) `{∀ x, Decision (P x)}.

Lemma find_Some_lookup (l : list A) (x : A) :
  find P l = Some x ↔ ∃ i, list_find P l = Some (i, x).
Proof.
  unfold find. destruct (list_find P l) as [[i y]|]; simpl; split.
  - intros [= ->]. by exists i.
  - by intros [j [= _ ->]].
  - done.
  - by intros [j ?].
Qed.

Lemma findIndex_Some_lookup (l : list A) (i : nat) :
  findIndex P l = Some i ↔ ∃ x, list_find P l = Some (i, x).
Proof.
  unfold findIndex. destruct (list_find P l) as [[j y]|]; simpl; split.
  - intros [= ->]. by exists y.
  - by intros [x [= -> _]].
  - done.
  - by intros [x ?].
Qed.

Lemma find_is_Some (l : list A) :
  is_Some (find P l) ↔ is_Some (findIndex P l).
Proof.
  unfold find, findIndex. rewrite !fmap_is_Some. done.
Qed.

(** Updating elements in place without changing the truth of [P] on them
    does not move the first match. *)
Lemma findIndex_alter (f : A → A) (i : nat) (l : list A) :
  (∀ x, P (f x) ↔ P x) →
  findIndex P (alter f i l) = findIndex P l.
Proof.
  intros Hf. unfold findIndex. revert i.
  induction l as [|x l IH]; intros [|i]; simpl; try done.
  - destruct (decide (P (f x))) as [Hp|Hp], (decide (P x)) as [Hq|Hq];
      simpl; try done; exfalso; specialize (Hf x); tauto.
  - destruct (decide (P x)); simpl; [done|].
    specialize (IH i). rewrite <- !option_fmap_compose.
    change (list_alter f i l) with (alter f i l).
    destruct (list_find P (alter f i l)) as [[? ?]|],
             (list_find P l) as [[? ?]|]; cbn in *; by simplify_eq.
Qed.

Lemma findIndex_lookup (l : list A) (i : nat) :
  findIndex P l = Some i → ∃ x, l !! i = Some x ∧ find P l = Some x.
Proof.
  intros [x Hx]%findIndex_Some_lookup. exists x. split.
  - by apply list_find_Some in Hx as (? & _).
  - apply find_Some_lookup. eauto.
Qed.
End Lookups.

(** ** Visibility of posts *)

Lemma includes_true (l : list string) (x : string) :
  includes l x = true ↔ x ∈ l.
Proof. unfold includes. apply bool_decide_eq_true. Qed.

Lemma includes_false (l : list string) (x : string) :
  includes l x = false ↔ x ∉ l.
Proof. unfold includes. apply bool_decide_eq_false. Qed.

(** C1. The predicate applied by the feed to every delivered post is true
    exactly when the visibility set [targetUserIds] is absent or empty, or
    holds the viewer's id, or the viewer is the author; the delivered feed
    is the posts satisfying it.  A post restricted to [{X}] is visible
    exactly to X and to its author, and a post whose set is absent or empty
    is visible to every viewer. *)
Theorem visible_spec (currentUser : User.t) (p : Post.t) :
  (Feed.visible currentUser p = true ↔
     Post.targetUserIds p = None
     ∨ Post.targetUserIds p = Some []
     ∨ (∃ t, Post.targetUserIds p = Some t ∧ User.id currentUser ∈ t)
     ∨ User.id currentUser = Post.authorId p)
  ∧ (∀ (allPosts : list Post.t) (q : Post.t),
       q ∈ Feed.visiblePosts currentUser allPosts ↔
       q ∈ allPosts ∧ Feed.visible currentUser q = true)
  ∧ (∀ X : string,
       Feed.visible currentUser (Post.set_targetUserIds p (Some [X])) = true ↔
       User.id currentUser = X ∨ User.id currentUser = Post.authorId p)
  ∧ Feed.visible currentUser (Post.set_targetUserIds p None) = true
  ∧ Feed.visible currentUser (Post.set_targetUserIds p (Some [])) = true.
Proof.
  split_and!.
  - unfold Feed.visible. destruct (Post.targetUserIds p) as [t|] eqn:Ht.
    + rewrite !orb_true_iff, Nat.eqb_eq, includes_true, bool_decide_eq_true.
      split.
      * intros [[Hlen | Hin] | Hauth].
        -- right; left. by destruct t.
        -- right; right; left. eauto.
        -- right; right; right. done.
      * intros [? | [[= ->] | [(t' & [= ->] & Hin) | Hauth]]];
          [done | by left; left | by left; right | by right].
    + split; [by left | done].
  - intros allPosts q. unfold Feed.visiblePosts.
    rewrite !list_elem_of_In, filter_In. done.
  - intros X. unfold Feed.visible.
    cbn [Post.set_targetUserIds Post.targetUserIds Post.authorId].
    rewrite !orb_true_iff, Nat.eqb_eq, includes_true, bool_decide_eq_true,
      list_elem_of_singleton.
    split; [intros [[? | ?] | ?] | intros [? | ?]]; try done; auto.
  - done.
  - done.
Qed.

(** ** Signing in *)

(** C9. In the promise-returning local service the outcome of [login] does
    not depend on the password.  When the promise resolves, its value is the
    stored user whose [userId] matches; it rejects with "User not found"
    exactly when no stored user has that [userId]; and a matching user is
    returned, and becomes the session, as soon as the browser accepts the
    write of the session item. *)
Theorem login_ignores_password (quota : AsyncLocal.LocalStorage → bool)
    (st : AsyncLocal.LocalStorage) (userId password1 password2 : string) :
  AsyncLocal.login quota st userId password1
    = AsyncLocal.login quota st userId password2
  ∧ (∀ found,
       snd (AsyncLocal.login quota st userId password1) = Resolved found →
       find (λ u, User.userId u = userId) (AsyncLocal.neobook_users st)
         = Some found)
  ∧ (snd (AsyncLocal.login quota st userId password1)
       = Rejected "User not found" ↔
     find (λ u, User.userId u = userId) (AsyncLocal.neobook_users st) = None)
  ∧ (∀ found,
       find (λ u, User.userId u = userId) (AsyncLocal.neobook_users st)
         = Some found →
       quota (AsyncLocal.set_session st (Some (User.id found))) = true →
       AsyncLocal.login quota st userId password1
         = (AsyncLocal.set_session st (Some (User.id found)), Resolved found)).
Proof.
  unfold AsyncLocal.login, AsyncLocal.setStored.
  destruct (find (λ u, User.userId u = userId) (AsyncLocal.neobook_users st))
    as [found|] eqn:Hfound.
  - destruct (quota (AsyncLocal.set_session st (Some (User.id found))))
      eqn:Hq; split_and!; simpl; try done.
    + by intros ? [= ->].
    + by intros ? [= ->].
    + intros ? [= <-] ?. congruence.
  - split_and!; done.
Qed.

Lemma login_ignores_password_witness :
  AsyncLocal.login Samples.roomy Samples.asyncStore "bob1" "123"
    = (AsyncLocal.set_session Samples.asyncStore (Some "u-bob"),
       Resolved Samples.bob)
  ∧ AsyncLocal.login Samples.roomy Samples.asyncStore "bob1" "wrong"
    = AsyncLocal.login Samples.roomy Samples.asyncStore "bob1" "123".
Proof.
  destruct (login_ignores_password Samples.roomy Samples.asyncStore
              "bob1" "wrong" "123") as (Heq & _ & _ & Hres).
  split; [| exact Heq].
  rewrite <- Heq. apply (Hres Samples.bob); reflexivity.
Defined.

(** ** Deleting a user *)

(** C10. In the promise-returning local service a resolved [deleteUser uid]
    stores exactly the user records whose [id] differs from [uid], each one
    unchanged and in the same order (so [uid] stays wherever it occurs in
    their [friends] and [friendRequests]), and leaves posts, messages and the
    session as they were. *)
Theorem deleteUser_frame (quota : AsyncLocal.LocalStorage → bool)
    (st st' : AsyncLocal.LocalStorage) (uid : string)
    (Hok : AsyncLocal.deleteUser quota st uid = (st', Resolved ())) :
  AsyncLocal.neobook_users st'
    = filter (λ u, User.id u ≠ uid) (AsyncLocal.neobook_users st)
  ∧ (∀ u, u ∈ AsyncLocal.neobook_users st' ↔
          u ∈ AsyncLocal.neobook_users st ∧ User.id u ≠ uid)
  ∧ AsyncLocal.neobook_posts st' = AsyncLocal.neobook_posts st
  ∧ AsyncLocal.neobook_messages st' = AsyncLocal.neobook_messages st
  ∧ AsyncLocal.neobook_session st' = AsyncLocal.neobook_session st.
Proof.
  unfold AsyncLocal.deleteUser, AsyncLocal.setStored in Hok.
  destruct (quota _); [|done]. injection Hok as <-.
  split_and!; try done.
  intros u. simpl. rewrite list_elem_of_filter. tauto.
Qed.

Lemma deleteUser_frame_witness :
  AsyncLocal.neobook_users
    (fst (AsyncLocal.deleteUser Samples.roomy Samples.asyncStore "u-bob"))
    = [Samples.alice; Samples.carol]
  ∧ "u-bob" ∈ User.friends Samples.carol.
Proof.
  split.
  - apply (deleteUser_frame Samples.roomy Samples.asyncStore _ "u-bob").
    reflexivity.
  - apply list_elem_of_singleton. reflexivity.
Defined.

(** ** Accepting a friend request *)

(** The three in-place updates of the local services, kept abstract: [f1]
    adds [b] to the accepter's friends, [f2] adds [a] to the requester's,
    [f3] removes [b] from the accepter's pending requests. *)
Section AcceptInPlace.
Variables (a b : string) (f1 f2 f3 : User.t → User.t).
Hypothesis f1_id : ∀ u, User.id (f1 u) = User.id u.
Hypothesis f2_id : ∀ u, User.id (f2 u) = User.id u.
Hypothesis f3_id : ∀ u, User.id (f3 u) = User.id u.
Hypothesis f1_name : ∀ u, User.name (f1 u) = User.name u.
Hypothesis f2_name : ∀ u, User.name (f2 u) = User.name u.
Hypothesis f3_name : ∀ u, User.name (f3 u) = User.name u.
Hypothesis f1_adds : ∀ u, b ∈ User.friends (f1 u).
Hypothesis f2_adds : ∀ u, a ∈ User.friends (f2 u).
Hypothesis f2_grows : ∀ u x, x ∈ User.friends u → x ∈ User.friends (f2 u).
Hypothesis f3_friends : ∀ u, User.friends (f3 u) = User.friends u.
Hypothesis f3_removes : ∀ u, b ∉ User.friendRequests (f3 u).

Lemma findIndex_three (c : string) (i j k : nat) (l : list User.t) :
  findIndex (λ u, User.id u = c) (alter f3 i (alter f2 j (alter f1 k l)))
  = findIndex (λ u, User.id u = c) l.
Proof.
  rewrite !findIndex_alter; [done | intros x ..].
  - by rewrite f1_id.
  - by rewrite f2_id.
  - by rewrite f3_id.
Qed.

Lemma accept_in_place (l : list User.t) (ui ri : nat) (u0 r0 : User.t) :
  list_find (λ u, User.id u = a) l = Some (ui, u0) →
  list_find (λ u, User.id u = b) l = Some (ri, r0) →
  ∃ ua ub,
    find (λ u, User.id u = a) (alter f3 ui (alter f2 ri (alter f1 ui l)))
      = Some ua
    ∧ find (λ u, User.id u = b) (alter f3 ui (alter f2 ri (alter f1 ui l)))
      = Some ub
    ∧ (alter f3 ui (alter f2 ri (alter f1 ui l))) !! ui = Some ua
    ∧ (alter f3 ui (alter f2 ri (alter f1 ui l))) !! ri = Some ub
    ∧ b ∈ User.friends ua ∧ a ∈ User.friends ub
    ∧ (b ∉ User.friendRequests ua)
    ∧ User.name ub = User.name r0.
Proof.
  intros Ha Hb.
  assert (findIndex (λ u, User.id u = a) l = Some ui) as Hia
    by (apply findIndex_Some_lookup; eauto).
  assert (findIndex (λ u, User.id u = b) l = Some ri) as Hib
    by (apply findIndex_Some_lookup; eauto).
  apply list_find_Some in Ha as (Hu0 & _ & _).
  apply list_find_Some in Hb as (Hr0 & _ & _).
  rewrite <- (findIndex_three a ui ri ui l) in Hia.
  rewrite <- (findIndex_three b ui ri ui l) in Hib.
  apply findIndex_lookup in Hia as (ua & Hua & Hfa).
  apply findIndex_lookup in Hib as (ub & Hub & Hfb).
  assert (∃ y, alter f2 ri (alter f1 ui l) !! ui = Some y
               ∧ b ∈ User.friends y) as (y & Hy & Hby).
  { rewrite list_lookup_alter. case_decide as Hd.
    - subst ri. rewrite list_lookup_alter_eq, Hu0. simpl. eauto.
    - rewrite list_lookup_alter_eq, Hu0. simpl. eauto. }
  assert (∃ w, alter f1 ui l !! ri = Some w
               ∧ User.name w = User.name r0) as (w & Hw & Hnw).
  { rewrite list_lookup_alter. case_decide as Hd.
    - subst ri. rewrite Hu0 in *. simplify_eq/=. eauto.
    - eauto. }
  assert (∃ z, alter f2 ri (alter f1 ui l) !! ri = Some z
               ∧ a ∈ User.friends z
               ∧ User.name z = User.name r0) as (z & Hz & Haz & Hnz).
  { rewrite list_lookup_alter_eq, Hw. simpl.
    eexists; split_and!; [done | auto | by rewrite f2_name]. }
  rewrite list_lookup_alter_eq, Hy in Hua. simpl in Hua.
  injection Hua as <-.
  assert (a ∈ User.friends ub ∧ User.name ub = User.name r0) as [? ?].
  { rewrite list_lookup_alter in Hub. case_decide as Hd.
    - subst ri. rewrite Hz in Hub. simpl in Hub. injection Hub as <-.
      by rewrite f3_friends, f3_name.
    - rewrite Hz in Hub. by injection Hub as <-. }
  exists (f3 y), ub. split_and!; try done.
  - by rewrite list_lookup_alter_eq, Hy.
  - by rewrite f3_friends.
Qed.
End AcceptInPlace.

Lemma Sync_safeSetItem_roomy (quota : Sync.LocalStorage → bool)
    (st st' : Sync.LocalStorage) :
  (∀ s, quota s = true) → Sync.safeSetItem quota st st' = (st', true).
Proof. intros Hq. unfold Sync.safeSetItem. by rewrite Hq. Qed.

Lemma Sync_setCurrentUser_frame (quota : Sync.LocalStorage → bool)
    (st : Sync.LocalStorage) (u : option User.t) :
  Sync.neobook_users (Sync.setCurrentUser quota st u) = Sync.neobook_users st
  ∧ Sync.neobook_posts (Sync.setCurrentUser quota st u)
    = Sync.neobook_posts st
  ∧ Sync.neobook_messages (Sync.setCurrentUser quota st u)
    = Sync.neobook_messages st.
Proof.
  unfold Sync.setCurrentUser, Sync.safeSetItem.
  destruct u as [u|]; [|done]. by destruct (quota _).
Qed.

Ltac in_place_side :=
  try done;
  try (intros; simpl; set_solver);
  try (intros u Hin; simpl in Hin; apply list_elem_of_filter in Hin; tauto).

(** What a successful [acceptFriendRequest] leaves in the synchronous
    store. *)
Lemma Sync_accept (quota : Sync.LocalStorage → bool) (st : Sync.LocalStorage)
    (a b : string) (now : N) (ui ri : nat) (u0 r0 : User.t) :
  (∀ s, quota s = true) →
  list_find (λ u, User.id u = a) (Sync.neobook_users st) = Some (ui, u0) →
  list_find (λ u, User.id u = b) (Sync.neobook_users st) = Some (ri, r0) →
  ∃ ua ub,
    find (λ u, User.id u = a)
      (Sync.neobook_users (Sync.acceptFriendRequest quota st a b now))
      = Some ua
    ∧ find (λ u, User.id u = b)
        (Sync.neobook_users (Sync.acceptFriendRequest quota st a b now))
      = Some ub
    ∧ b ∈ User.friends ua ∧ a ∈ User.friends ub
    ∧ (b ∉ User.friendRequests ua)
    ∧ Sync.neobook_messages (Sync.acceptFriendRequest quota st a b now)
      = Sync.neobook_messages st
          ++ [announcementSync b a (User.name r0) now].
Proof.
  intros Hq Ha Hb.
  edestruct (accept_in_place a b
    (λ u, User.set_friends u (User.friends u ++ [b]))
    (λ u, User.set_friends u (User.friends u ++ [a]))
    (λ u, User.set_friendRequests u
            (filter (λ i, i ≠ b) (User.friendRequests u))))
    as (ua & ub & Hfa & Hfb & Hla & Hlb & Hba & Hab & Hreq & Hname);
    [.. | exact Ha | exact Hb |]; in_place_side.
  exists ua, ub.
  unfold Sync.acceptFriendRequest, Sync.getUsers, Sync.saveUsers,
    Sync.saveMessages, Sync.getMessages, Sync.getCurrentUser.
  rewrite Ha, Hb. cbv zeta.
  rewrite !Sync_safeSetItem_roomy by done.
  rewrite Hla, Hlb. cbn -[Sync.setCurrentUser].
  destruct (Sync.neobook_session st) as [c|]; [case_bool_decide |..];
    rewrite ?(proj1 (Sync_setCurrentUser_frame _ _ _)),
            ?(proj2 (proj2 (Sync_setCurrentUser_frame _ _ _)));
    simpl; unfold announcementSync; rewrite Hname; done.
Qed.

Ltac push_once_side :=
  try done;
  try (intros u; destruct (includes _ _) eqn:E; simpl;
       [by apply includes_true in E | set_solver]);
  try (intros u; by destruct (includes _ _));
  try (intros u x; destruct (includes _ _); simpl; set_solver);
  try (intros u Hin; simpl in Hin; apply list_elem_of_filter in Hin; tauto).

(** What a resolved [acceptFriendRequest] between two stored users leaves in
    the promise-returning local store. *)
Lemma AsyncLocal_accept (quota : AsyncLocal.LocalStorage → bool)
    (st st' : AsyncLocal.LocalStorage) (a b : string) (t1 t2 : N)
    (ui ri : nat) (u0 r0 : User.t) :
  list_find (λ u, User.id u = a) (AsyncLocal.neobook_users st)
    = Some (ui, u0) →
  list_find (λ u, User.id u = b) (AsyncLocal.neobook_users st)
    = Some (ri, r0) →
  AsyncLocal.acceptFriendRequest quota st a b t1 t2 = (st', Resolved ()) →
  ∃ ua ub,
    find (λ u, User.id u = a) (AsyncLocal.neobook_users st') = Some ua
    ∧ find (λ u, User.id u = b) (AsyncLocal.neobook_users st') = Some ub
    ∧ b ∈ User.friends ua ∧ a ∈ User.friends ub
    ∧ (b ∉ User.friendRequests ua)
    ∧ AsyncLocal.neobook_messages st'
      = AsyncLocal.neobook_messages st
          ++ [announcement b a (User.name r0) t1 t2].
Proof.
  intros Ha Hb.
  edestruct (accept_in_place a b
    (λ u, if includes (User.friends u) b then u
          else User.set_friends u (User.friends u ++ [b]))
    (λ u, if includes (User.friends u) a then u
          else User.set_friends u (User.friends u ++ [a]))
    (λ u, User.set_friendRequests u
            (filter (λ i, i ≠ b) (User.friendRequests u))))
    as (ua & ub & Hfa & Hfb & Hla & Hlb & Hba & Hab & Hreq & Hname);
    [.. | exact Ha | exact Hb |]; push_once_side.
  unfold AsyncLocal.acceptFriendRequest, findIndex.
  rewrite Ha, Hb. cbn [fmap option_fmap option_map fst].
  unfold AsyncLocal.setStored at 1.
  destruct (quota _); [|done].
  rewrite Hlb. cbn [from_option].
  unfold AsyncLocal.sendMessage, AsyncLocal.setStored.
  rewrite bool_decide_eq_false_2 by done.
  destruct (quota _); [|done].
  intros [= <-]. exists ua, ub. simpl.
  unfold announcement. rewrite Hname. done.
Qed.

(** What an [acceptFriendRequest] that ran without an error leaves in
    Firestore; in particular both documents existed. *)
Lemma Firebase_accept (db db' : Firebase.Firestore) (a b : string)
    (t1 t2 : N) (autoId : string) :
  Firebase.acceptFriendRequest db a b t1 t2 autoId = (db', false) →
  ∃ u0 r0 ua ub,
    Firebase.users db !! a = Some u0
    ∧ Firebase.users db !! b = Some r0
    ∧ Firebase.users db' !! a = Some ua
    ∧ Firebase.users db' !! b = Some ub
    ∧ b ∈ User.friends ua ∧ a ∈ User.friends ub
    ∧ (b ∉ User.friendRequests ua)
    ∧ Firebase.messages db'
      = <[autoId := announcement b a (User.name r0) t1 t2]>
          (Firebase.messages db)
    ∧ Firebase.posts db' = Firebase.posts db.
Proof.
  unfold Firebase.acceptFriendRequest, Firebase.updateDoc.
  destruct (Firebase.users db !! a) as [u0|] eqn:Hu0; [|done].
  cbn [Firebase.users Firebase.set_users].
  assert (∀ x (l : list string), x ∈ Firebase.arrayUnion x l) as Hunion.
  { intros x l. unfold Firebase.arrayUnion.
    destruct (includes l x) eqn:E; [by apply includes_true in E | set_solver]. }
  assert (∀ x y (l : list string),
            y ∈ l → y ∈ Firebase.arrayUnion x l) as Hgrow.
  { intros x y l. unfold Firebase.arrayUnion.
    destruct (includes l x); set_solver. }
  assert (∀ x (l : list string), x ∉ Firebase.arrayRemove x l) as Hrem.
  { intros x l Hin. apply list_elem_of_filter in Hin. tauto. }
  destruct (decide (a = b)) as [<-|Hne].
  - rewrite lookup_insert_eq. cbn [Firebase.users Firebase.set_users].
    rewrite lookup_insert_eq. intros [= <-].
    eexists u0, u0, _, _. cbn [Firebase.users Firebase.messages
      Firebase.posts Firebase.addDoc Firebase.set_messages Firebase.set_users].
    rewrite !lookup_insert_eq. split_and!; try done; simpl; auto.
  - rewrite lookup_insert_ne by done.
    destruct (Firebase.users db !! b) as [r0|] eqn:Hr0; [|done].
    cbn [Firebase.users Firebase.set_users].
    rewrite lookup_insert_eq. intros [= <-].
    eexists u0, r0, _, _. cbn [Firebase.users Firebase.messages
      Firebase.posts Firebase.addDoc Firebase.set_messages Firebase.set_users].
    rewrite lookup_insert_ne, !lookup_insert_eq by done.
    split_and!; try done; simpl; auto.
Qed.

Lemma find_is_Some_list_find {A} (P : A → Prop) `{∀ x, Decision (P x)}
    (l : list A) :
  is_Some (find P l) → ∃ i x, list_find P l = Some (i, x).
Proof.
  intros [x Hx]. apply find_Some_lookup in Hx as [i Hi]. eauto.
Qed.

(** C2. Friendship symmetry.  After [acceptFriendRequest a b] has succeeded,
    [b] is in the friends of [a] and [a] is in the friends of [b], so either
    membership holds if and only if the other does.  Success is: in the
    synchronous service both users are stored and the browser accepts the
    writes; in the promise-returning local service both users are stored and
    the promise resolves; in the Firestore service no step failed. *)
Theorem acceptFriendRequest_symmetric :
  (∀ quota st a b now,
     (∀ s, quota s = true) →
     is_Some (Sync.findUserById st a) → is_Some (Sync.findUserById st b) →
     ∃ fa fb,
       friendsOf
         (Sync.neobook_users (Sync.acceptFriendRequest quota st a b now)) a
         = Some fa
       ∧ friendsOf
           (Sync.neobook_users (Sync.acceptFriendRequest quota st a b now)) b
         = Some fb
       ∧ b ∈ fa ∧ a ∈ fb ∧ (b ∈ fa ↔ a ∈ fb))
  ∧ (∀ quota st st' a b t1 t2,
       is_Some (AsyncLocal.getUser st a) → is_Some (AsyncLocal.getUser st b) →
       AsyncLocal.acceptFriendRequest quota st a b t1 t2
         = (st', Resolved ()) →
       ∃ fa fb,
         friendsOf (AsyncLocal.neobook_users st') a = Some fa
         ∧ friendsOf (AsyncLocal.neobook_users st') b = Some fb
         ∧ b ∈ fa ∧ a ∈ fb ∧ (b ∈ fa ↔ a ∈ fb))
  ∧ (∀ db db' a b t1 t2 autoId,
       Firebase.acceptFriendRequest db a b t1 t2 autoId = (db', false) →
       ∃ fa fb,
         friendsOfDoc (Firebase.users db') a = Some fa
         ∧ friendsOfDoc (Firebase.users db') b = Some fb
         ∧ b ∈ fa ∧ a ∈ fb ∧ (b ∈ fa ↔ a ∈ fb)).
Proof.
  split_and!.
  - intros quota st a b now Hq
      (ui & u0 & Ha)%find_is_Some_list_find
      (ri & r0 & Hb)%find_is_Some_list_find.
    destruct (Sync_accept quota st a b now ui ri u0 r0 Hq Ha Hb)
      as (ua & ub & Hfa & Hfb & ? & ? & _).
    exists (User.friends ua), (User.friends ub). unfold friendsOf.
    rewrite Hfa, Hfb. by split_and!.
  - intros quota st st' a b t1 t2
      (ui & u0 & Ha)%find_is_Some_list_find
      (ri & r0 & Hb)%find_is_Some_list_find Hok.
    destruct (AsyncLocal_accept quota st st' a b t1 t2 ui ri u0 r0 Ha Hb Hok)
      as (ua & ub & Hfa & Hfb & ? & ? & _).
    exists (User.friends ua), (User.friends ub). unfold friendsOf.
    rewrite Hfa, Hfb. by split_and!.
  - intros db db' a b t1 t2 autoId Hok.
    destruct (Firebase_accept db db' a b t1 t2 autoId Hok)
      as (u0 & r0 & ua & ub & _ & _ & Hfa & Hfb & ? & ? & _).
    exists (User.friends ua), (User.friends ub). unfold friendsOfDoc.
    rewrite Hfa, Hfb. by split_and!.
Qed.

Lemma acceptFriendRequest_symmetric_witness :
  (∃ fa fb,
     friendsOf
       (Sync.neobook_users
          (Sync.acceptFriendRequest Samples.roomy Samples.syncStore
             "u-bob" "u-alice" 7%N)) "u-bob" = Some fa
     ∧ friendsOf
         (Sync.neobook_users
            (Sync.acceptFriendRequest Samples.roomy Samples.syncStore
               "u-bob" "u-alice" 7%N)) "u-alice" = Some fb
     ∧ "u-alice" ∈ fa ∧ "u-bob" ∈ fb ∧ ("u-alice" ∈ fa ↔ "u-bob" ∈ fb))
  ∧ (∃ fa fb,
       friendsOf
         (AsyncLocal.neobook_users
            (fst (AsyncLocal.acceptFriendRequest Samples.roomy
                    Samples.asyncStore "u-bob" "u-alice" 7%N 8%N))) "u-bob"
         = Some fa
       ∧ friendsOf
           (AsyncLocal.neobook_users
              (fst (AsyncLocal.acceptFriendRequest Samples.roomy
                      Samples.asyncStore "u-bob" "u-alice" 7%N 8%N)))
           "u-alice" = Some fb
       ∧ "u-alice" ∈ fa ∧ "u-bob" ∈ fb ∧ ("u-alice" ∈ fa ↔ "u-bob" ∈ fb))
  ∧ (∃ fa fb,
       friendsOfDoc
         (Firebase.users
            (fst (Firebase.acceptFriendRequest Samples.fireStore
                    "u-bob" "u-alice" 7%N 8%N "m-1"))) "u-bob" = Some fa
       ∧ friendsOfDoc
           (Firebase.users
              (fst (Firebase.acceptFriendRequest Samples.fireStore
                      "u-bob" "u-alice" 7%N 8%N "m-1"))) "u-alice" = Some fb
       ∧ "u-alice" ∈ fa ∧ "u-bob" ∈ fb ∧ ("u-alice" ∈ fa ↔ "u-bob" ∈ fb)).
Proof.
  destruct acceptFriendRequest_symmetric as (Hsync & Hasync & Hfire).
  split_and!.
  - apply Hsync; [reflexivity | by eexists | by eexists].
  - apply (Hasync Samples.roomy Samples.asyncStore _ _ _ 7%N 8%N);
      [by eexists | by eexists | reflexivity].
  - apply (Hfire Samples.fireStore _ _ _ 7%N 8%N "m-1"). reflexivity.
Defined.

(** C7. The announcement.  A successful [acceptFriendRequest userId
    requesterId] stores exactly one more message; it goes from the requester
    to the accepter, carries the friendship text with the requester's name,
    bears a system id and the clock reading taken during the call, and is
    unread.  After the call [requesterId] is no longer among the pending
    requests of [userId].  Success is as in C2; in Firestore the message is
    stored under the id that [addDoc] generates, which is new. *)
Theorem acceptFriendRequest_announces :
  (∀ quota st userId requesterId now requester,
     (∀ s, quota s = true) →
     is_Some (Sync.findUserById st userId) →
     Sync.findUserById st requesterId = Some requester →
     ∃ m ra,
       Sync.neobook_messages
         (Sync.acceptFriendRequest quota st userId requesterId now)
         = Sync.neobook_messages st ++ [m]
       ∧ m = announcementSync requesterId userId (User.name requester) now
       ∧ Message.fromId m = requesterId ∧ Message.toId m = userId
       ∧ Message.timestamp m = now
       ∧ requestsOf
           (Sync.neobook_users
              (Sync.acceptFriendRequest quota st userId requesterId now))
           userId = Some ra
       ∧ requesterId ∉ ra)
  ∧ (∀ quota st st' userId requesterId t1 t2 requester,
       is_Some (AsyncLocal.getUser st userId) →
       AsyncLocal.getUser st requesterId = Some requester →
       AsyncLocal.acceptFriendRequest quota st userId requesterId t1 t2
         = (st', Resolved ()) →
       ∃ m ra,
         AsyncLocal.neobook_messages st'
           = AsyncLocal.neobook_messages st ++ [m]
         ∧ m = announcement requesterId userId (User.name requester) t1 t2
         ∧ Message.fromId m = requesterId ∧ Message.toId m = userId
         ∧ Message.timestamp m = t2
         ∧ requestsOf (AsyncLocal.neobook_users st') userId = Some ra
         ∧ requesterId ∉ ra)
  ∧ (∀ db db' userId requesterId t1 t2 autoId,
       Firebase.messages db !! autoId = None →
       Firebase.acceptFriendRequest db userId requesterId t1 t2 autoId
         = (db', false) →
       ∃ requester m ra,
         Firebase.getUser db requesterId = Some requester
         ∧ Firebase.messages db' = <[autoId := m]> (Firebase.messages db)
         ∧ size (Firebase.messages db') = S (size (Firebase.messages db))
         ∧ m = announcement requesterId userId (User.name requester) t1 t2
         ∧ Message.fromId m = requesterId ∧ Message.toId m = userId
         ∧ Message.timestamp m = t2
         ∧ requestsOfDoc (Firebase.users db') userId = Some ra
         ∧ requesterId ∉ ra).
Proof.
  split_and!.
  - intros quota st a b now r0 Hq
      (ui & u0 & Ha)%find_is_Some_list_find Hr0.
    pose proof Hr0 as [ri Hb]%find_Some_lookup.
    destruct (Sync_accept quota st a b now ui ri u0 r0 Hq Ha Hb)
      as (ua & ub & Hfa & _ & _ & _ & Hreq & Hmsg).
    eexists _, (User.friendRequests ua). unfold requestsOf.
    rewrite Hfa, Hmsg. by split_and!.
  - intros quota st st' a b t1 t2 r0
      (ui & u0 & Ha)%find_is_Some_list_find Hr0 Hok.
    pose proof Hr0 as [ri Hb]%find_Some_lookup.
    destruct (AsyncLocal_accept quota st st' a b t1 t2 ui ri u0 r0 Ha Hb Hok)
      as (ua & ub & Hfa & _ & _ & _ & Hreq & Hmsg).
    eexists _, (User.friendRequests ua). unfold requestsOf.
    rewrite Hfa, Hmsg. by split_and!.
  - intros db db' a b t1 t2 autoId Hfresh Hok.
    destruct (Firebase_accept db db' a b t1 t2 autoId Hok)
      as (u0 & r0 & ua & ub & _ & Hr0 & Hfa & _ & _ & _ & Hreq & Hmsg & _).
    eexists r0, _, (User.friendRequests ua). unfold requestsOfDoc.
    rewrite Hfa, Hmsg. split_and!; try done.
    by apply map_size_insert_None.
Qed.

Lemma acceptFriendRequest_announces_witness :
  (∃ m ra,
     Sync.neobook_messages
       (Sync.acceptFriendRequest Samples.roomy Samples.syncStore
          "u-bob" "u-alice" 7%N)
       = Sync.neobook_messages Samples.syncStore ++ [m]
     ∧ m = announcementSync "u-alice" "u-bob" "Alice" 7%N
     ∧ Message.fromId m = "u-alice" ∧ Message.toId m = "u-bob"
     ∧ Message.timestamp m = 7%N
     ∧ requestsOf
         (Sync.neobook_users
            (Sync.acceptFriendRequest Samples.roomy Samples.syncStore
               "u-bob" "u-alice" 7%N)) "u-bob" = Some ra
     ∧ "u-alice" ∉ ra)
  ∧ (∃ m ra,
       AsyncLocal.neobook_messages
         (fst (AsyncLocal.acceptFriendRequest Samples.roomy
                 Samples.asyncStore "u-bob" "u-alice" 7%N 8%N))
         = AsyncLocal.neobook_messages Samples.asyncStore ++ [m]
       ∧ m = announcement "u-alice" "u-bob" "Alice" 7%N 8%N
       ∧ Message.fromId m = "u-alice" ∧ Message.toId m = "u-bob"
       ∧ Message.timestamp m = 8%N
       ∧ requestsOf
           (AsyncLocal.neobook_users
              (fst (AsyncLocal.acceptFriendRequest Samples.roomy
                      Samples.asyncStore "u-bob" "u-alice" 7%N 8%N)))
           "u-bob" = Some ra
       ∧ "u-alice" ∉ ra)
  ∧ (∃ requester m ra,
       Firebase.getUser Samples.fireStore "u-alice" = Some requester
       ∧ Firebase.messages
           (fst (Firebase.acceptFriendRequest Samples.fireStore
                   "u-bob" "u-alice" 7%N 8%N "m-1"))
         = <["m-1" := m]> (Firebase.messages Samples.fireStore)
       ∧ size (Firebase.messages
                 (fst (Firebase.acceptFriendRequest Samples.fireStore
                         "u-bob" "u-alice" 7%N 8%N "m-1")))
         = S (size (Firebase.messages Samples.fireStore))
       ∧ m = announcement "u-alice" "u-bob" (User.name requester) 7%N 8%N
       ∧ Message.fromId m = "u-alice" ∧ Message.toId m = "u-bob"
       ∧ Message.timestamp m = 8%N
       ∧ requestsOfDoc
           (Firebase.users
              (fst (Firebase.acceptFriendRequest Samples.fireStore
                      "u-bob" "u-alice" 7%N 8%N "m-1"))) "u-bob" = Some ra
       ∧ "u-alice" ∉ ra).
Proof.
  destruct acceptFriendRequest_announces as (Hsync & Hasync & Hfire).
  split_and!.
  - apply (Hsync Samples.roomy Samples.syncStore "u-bob" "u-alice" 7%N
             Samples.alice); [reflexivity | by eexists | reflexivity].
  - apply (Hasync Samples.roomy Samples.asyncStore _ "u-bob" "u-alice"
             7%N 8%N Samples.alice); [by eexists | reflexivity | reflexivity].
  - apply (Hfire Samples.fireStore _ "u-bob" "u-alice" 7%N 8%N "m-1");
      reflexivity.
Defined.

(** ** The limit on stored posts *)

Lemma Sync_createPost_posts (quota : Sync.LocalStorage → bool)
    (st : Sync.LocalStorage) (post : Post.t) :
  (∀ s, quota s = true) →
  Sync.neobook_posts (Sync.createPost quota st post)
  = post :: (if 50 <? length (Sync.neobook_posts st)
             then removelast (Sync.neobook_posts st)
             else Sync.neobook_posts st).
Proof.
  intros Hq. unfold Sync.createPost, Sync.savePosts, Sync.getPosts.
  by rewrite Sync_safeSetItem_roomy.
Qed.

(** The guard [posts.length > 50] lets a store of exactly 50 posts grow. *)
Lemma Sync_createPost_at_50 (quota : Sync.LocalStorage → bool)
    (st : Sync.LocalStorage) (post : Post.t) :
  (∀ s, quota s = true) →
  length (Sync.neobook_posts st) = 50 →
  Sync.neobook_posts (Sync.createPost quota st post)
    = post :: Sync.neobook_posts st
  ∧ length (Sync.neobook_posts (Sync.createPost quota st post)) = 51.
Proof.
  intros Hq Hlen. rewrite Sync_createPost_posts by done.
  rewrite Hlen. simpl. by rewrite Hlen.
Qed.

Lemma Sync_createPost_length (quota : Sync.LocalStorage → bool)
    (st : Sync.LocalStorage) (post : Post.t) :
  (∀ s, quota s = true) →
  length (Sync.neobook_posts (Sync.createPost quota st post))
  = if 50 <? length (Sync.neobook_posts st)
    then length (Sync.neobook_posts st)
    else S (length (Sync.neobook_posts st)).
Proof.
  intros Hq. rewrite Sync_createPost_posts by done.
  destruct (Nat.ltb_spec 50 (length (Sync.neobook_posts st))) as [Hlt|Hge];
    [|done].
  cbn [length]. rewrite removelast_firstn_len, length_take. lia.
Qed.

(** The synchronous store settles at 51 posts, one more than the limit
    named in the source. *)
Lemma Sync_createPosts_length (quota : Sync.LocalStorage → bool)
    (ps : list Post.t) (st : Sync.LocalStorage) :
  (∀ s, quota s = true) →
  length (Sync.neobook_posts st) ≤ 51 →
  length (Sync.neobook_posts (foldl (Sync.createPost quota) st ps))
  = (length (Sync.neobook_posts st) + length ps) `min` 51.
Proof.
  intros Hq. revert st.
  induction ps as [|p ps IH]; intros st Hst; simpl.
  - lia.
  - rewrite IH; rewrite Sync_createPost_length by done;
      destruct (Nat.ltb_spec 50 (length (Sync.neobook_posts st))); lia.
Qed.

(** C3. Creating 51 posts in an empty synchronous store leaves all 51 of
    them, the first one included; only the 52nd creation evicts a post, and
    the store then stays at 51.  Starting from the seeded store, 51
    creations evict the welcome post and leave the 51 created posts, the
    first one included.  The promise-returning local service never evicts. *)
Theorem createPost_keeps_51 :
  Sync.neobook_posts
    (Samples.createPosts Samples.emptySync (Samples.postN <$> seq 1 51))
    = Samples.postN <$> reverse (seq 1 51)
  ∧ length (Sync.neobook_posts
              (Samples.createPosts Samples.emptySync
                 (Samples.postN <$> seq 1 51))) = 51
  ∧ last (Sync.neobook_posts
            (Samples.createPosts Samples.emptySync
               (Samples.postN <$> seq 1 51))) = Some (Samples.postN 1)
  ∧ Sync.neobook_posts
      (Samples.createPosts Samples.emptySync (Samples.postN <$> seq 1 52))
    = Samples.postN <$> reverse (seq 2 51)
  ∧ Sync.neobook_posts
      (Samples.createPosts Samples.seededSync (Samples.postN <$> seq 1 51))
    = Samples.postN <$> reverse (seq 1 51)
  ∧ (∀ st post,
       AsyncLocal.neobook_posts
         (fst (AsyncLocal.createPost Samples.roomy st post))
       = post :: AsyncLocal.neobook_posts st).
Proof.
  split_and!; [vm_compute; reflexivity .. | done].
Qed.

(** ** Sending a message *)

(** C8, counterexample: in the promise-returning local service a 501st
    message is stored next to the 500 already there. *)
Lemma sendMessage_bound_counterexample :
  ¬ (length
       (AsyncLocal.neobook_messages
          (fst (AsyncLocal.sendMessage Samples.roomy Samples.fullAsync
                  (Samples.mkMessage "m-new") 0%N "0.5"))) ≤ 500).
Proof.
  assert (length
            (AsyncLocal.neobook_messages
               (fst (AsyncLocal.sendMessage Samples.roomy Samples.fullAsync
                       (Samples.mkMessage "m-new") 0%N "0.5"))) = 501) as ->
    by (vm_compute; reflexivity).
  lia.
Qed.

(** C8, amended.  Synchronous service: the message is appended as given (an
    empty id stays empty); when the count after the append exceeds 500,
    that is when 500 or more were stored, the 100 oldest are removed; a
    store of at most 500 messages stays at most 500.  Promise-returning
    local service: a message without id gets a generated one, the message is
    appended and nothing is removed.  Firestore service: the message is
    added as given under a generated document id and nothing is removed. *)
Theorem sendMessage_spec :
  (∀ quota st msg,
     (∀ s, quota s = true) →
     Sync.neobook_messages (Sync.sendMessage quota st msg)
       = (if 500 <=? length (Sync.neobook_messages st)
          then drop 100 (Sync.neobook_messages st)
          else Sync.neobook_messages st) ++ [msg]
     ∧ (length (Sync.neobook_messages st) ≤ 500 →
        length (Sync.neobook_messages (Sync.sendMessage quota st msg)) ≤ 500))
  ∧ (∀ quota st st' msg now rnd,
       AsyncLocal.sendMessage quota st msg now rnd = (st', Resolved ()) →
       AsyncLocal.neobook_messages st'
         = AsyncLocal.neobook_messages st
             ++ [if bool_decide (Message.id msg = "")
                 then Message.set_id msg
                        ("msg-" +:+ showNum now +:+ "-" +:+ rnd)
                 else msg]
       ∧ length (AsyncLocal.neobook_messages st')
         = S (length (AsyncLocal.neobook_messages st)))
  ∧ (∀ db msg autoId,
       Firebase.messages (Firebase.sendMessage db msg autoId)
         = <[autoId := msg]> (Firebase.messages db)).
Proof.
  split_and!.
  - intros quota st msg Hq.
    unfold Sync.sendMessage, Sync.saveMessages, Sync.getMessages.
    rewrite Sync_safeSetItem_roomy by done.
    cbn [fst Sync.neobook_messages Sync.set_messages].
    assert (length (Sync.neobook_messages st ++ [msg])
            = S (length (Sync.neobook_messages st))) as Hlen
      by (rewrite length_app; simpl; lia).
    destruct (Nat.leb_spec 500 (length (Sync.neobook_messages st))) as [Hle|Hgt].
    + rewrite (proj2 (Nat.ltb_lt 500 _)) by lia.
      rewrite drop_app_le by lia. split; [done|].
      intros ?. rewrite length_app, length_drop. simpl. lia.
    + rewrite (proj2 (Nat.ltb_ge 500 _)) by lia.
      split; [done|]. intros _. lia.
  - intros quota st st' msg now rnd.
    unfold AsyncLocal.sendMessage, AsyncLocal.setStored.
    destruct (quota _); [|done]. intros [= <-]. simpl.
    split; [done|]. rewrite length_app. simpl. lia.
  - done.
Qed.

Lemma sendMessage_spec_witness :
  (Sync.neobook_messages
     (Sync.sendMessage Samples.roomy Samples.syncStore (Samples.mkMessage ""))
     = [Samples.mkMessage ""])
  ∧ AsyncLocal.neobook_messages
      (fst (AsyncLocal.sendMessage Samples.roomy Samples.asyncStore
              (Samples.mkMessage "") 7%N "0.5"))
    = [Samples.mkMessage "msg-7-0.5"].
Proof.
  destruct sendMessage_spec as (Hsync & Hasync & _).
  split.
  - apply (Hsync Samples.roomy Samples.syncStore (Samples.mkMessage "")).
    reflexivity.
  - apply (Hasync Samples.roomy Samples.asyncStore _ (Samples.mkMessage "")
             7%N "0.5").
    reflexivity.
Defined.

(** ** Updating a user *)

(** The synchronous service refuses an update whose handle is held by
    another stored user, and commits nothing. *)
Lemma Sync_updateUser_taken (quota : Sync.LocalStorage → bool)
    (st : Sync.LocalStorage) (updatedUser other : User.t) :
  other ∈ Sync.neobook_users st →
  User.userId other = User.userId updatedUser →
  User.id other ≠ User.id updatedUser →
  Sync.updateUser quota st updatedUser = (st, false).
Proof.
  intros Hin Hhandle Hid. unfold Sync.updateUser, Sync.getUsers, find.
  destruct (list_find_elem_of
    (λ u, User.userId u = User.userId updatedUser
          ∧ User.id u ≠ User.id updatedUser)
    (Sync.neobook_users st) other Hin) as [[i x] ->]; done.
Qed.

(** It accepts an update whose handle no other stored user holds, the
    user's own current handle included, when the browser accepts the
    write. *)
Lemma Sync_updateUser_free (quota : Sync.LocalStorage → bool)
    (st : Sync.LocalStorage) (updatedUser : User.t) :
  (∀ s, quota s = true) →
  (∀ u, u ∈ Sync.neobook_users st →
        User.userId u = User.userId updatedUser →
        User.id u = User.id updatedUser) →
  snd (Sync.updateUser quota st updatedUser) = true
  ∧ Sync.neobook_users (fst (Sync.updateUser quota st updatedUser))
    = (λ u, if bool_decide (User.id u = User.id updatedUser)
            then updatedUser else u) <$> Sync.neobook_users st.
Proof.
  intros Hq Hfree. unfold Sync.updateUser, Sync.getUsers, find.
  destruct (list_find _ _) as [[i x]|] eqn:Hfind.
  - apply list_find_Some in Hfind as (Hx%list_elem_of_lookup_2 & [? ?] & _).
    exfalso. auto.
  - cbn [fmap option_fmap option_map]. unfold Sync.saveUsers.
    rewrite Sync_safeSetItem_roomy by done.
    split; [done|].
    cbn [fst]. by rewrite (proj1 (Sync_setCurrentUser_frame _ _ _)).
Qed.

(** In the promise-returning local service the handle check is a separate
    operation: a handle is available when no stored user has it, or when
    the first stored user that has it is the (non-empty) [currentUid]. *)
Lemma AsyncLocal_checkIdAvailability_spec (st : AsyncLocal.LocalStorage)
    (userId : string) (currentUid : option string) :
  AsyncLocal.checkIdAvailability st userId currentUid = true ↔
  find (λ u, User.userId u = userId) (AsyncLocal.neobook_users st) = None
  ∨ ∃ found c,
      find (λ u, User.userId u = userId) (AsyncLocal.neobook_users st)
        = Some found
      ∧ currentUid = Some c ∧ c ≠ "" ∧ User.id found = c.
Proof.
  unfold AsyncLocal.checkIdAvailability.
  destruct (find _ _) as [found|]; [|by split; [left|]].
  destruct currentUid as [c|].
  - rewrite bool_decide_eq_true. split.
    + intros [? ?]. right. by exists found, c.
    + intros [? | (f & c' & [= <-] & [= <-] & ? & ?)]; done.
  - split; [done|]. by intros [? | (f & c' & _ & ? & _)].
Qed.

(** C6. Bob saves his profile with Alice's handle.  The synchronous service
    refuses and stores nothing; the promise-returning local service and the
    Firestore service report success and store the record, after which the
    handle "alice1" is held by two users. *)
Theorem updateUser_handle_check :
  User.userId Samples.bobAsAlice = User.userId Samples.alice
  ∧ User.id Samples.bobAsAlice ≠ User.id Samples.alice
  ∧ Sync.updateUser Samples.roomy Samples.syncStore Samples.bobAsAlice
    = (Samples.syncStore, false)
  ∧ AsyncLocal.updateUser Samples.roomy Samples.asyncStore Samples.bobAsAlice
    = (AsyncLocal.set_users Samples.asyncStore
         [Samples.alice; Samples.bobAsAlice; Samples.carol], true)
  ∧ snd (Firebase.updateUser Samples.fireStore Samples.bobAsAlice) = true
  ∧ Firebase.users
      (fst (Firebase.updateUser Samples.fireStore Samples.bobAsAlice))
      !! "u-bob" = Some Samples.bobAsAlice
  ∧ Firebase.users
      (fst (Firebase.updateUser Samples.fireStore Samples.bobAsAlice))
      !! "u-alice" = Some Samples.alice.
Proof.
  split_and!; try reflexivity. discriminate.
Qed.

(** ** Liking a post *)

Lemma updatedLikes_elem (currentUser : User.t) (post : Post.t) (x : string) :
  x ∈ Feed.updatedLikes currentUser post ↔
  (x = User.id currentUser ∧ User.id currentUser ∉ Post.likes post)
  ∨ (x ≠ User.id currentUser ∧ x ∈ Post.likes post).
Proof.
  unfold Feed.updatedLikes.
  destruct (includes (Post.likes post) (User.id currentUser)) eqn:E.
  - apply includes_true in E. rewrite list_elem_of_filter.
    intuition congruence.
  - apply includes_false in E. rewrite elem_of_app, list_elem_of_singleton.
    destruct (decide (x = User.id currentUser)); intuition congruence.
Qed.

(** C4, counterexample: Carol presses the like button of a post she has not
    liked.  After one press she is in its likes, after the second press she
    is not: twice is not the same as once. *)
Lemma like_twice_counterexample :
  Firebase.posts (Feed.handleLike Samples.fireStore Samples.carol Samples.root)
    !! "post-root" = Some Samples.likedOnce
  ∧ Firebase.posts
      (Feed.handleLike
         (Feed.handleLike Samples.fireStore Samples.carol Samples.root)
         Samples.carol Samples.likedOnce)
      !! "post-root" = Some Samples.likedTwice
  ∧ Post.likes Samples.likedOnce = ["u-carol"]
  ∧ Post.likes Samples.likedTwice = []
  ∧ ¬ (∀ x, x ∈ Post.likes Samples.likedTwice ↔
            x ∈ Post.likes Samples.likedOnce).
Proof.
  split_and!; try reflexivity.
  intros H. specialize (H "u-carol").
  assert (Post.likes Samples.likedTwice = []) as E by reflexivity.
  rewrite E in H. apply (not_elem_of_nil "u-carol"), H.
  apply list_elem_of_singleton. reflexivity.
Qed.

(** C4, amended.  [handleLike] is a toggle.  It stores the post, under its
    id, with the user's id appended to the likes when it was not there and
    with every occurrence removed when it was; the membership of every
    other id is unchanged.  Two presses in a row give back the original
    membership, and a like followed by an unlike gives back the very list
    of likes the post had before.  Only a repetition with the same snapshot
    of the post changes nothing: it overwrites the stored post with itself. *)
Theorem handleLike_toggles (db : Firebase.Firestore) (currentUser : User.t)
    (post : Post.t) :
  Firebase.posts (Feed.handleLike db currentUser post) !! Post.id post
    = Some (Post.set_likes post (Feed.updatedLikes currentUser post))
  ∧ (User.id currentUser ∈ Feed.updatedLikes currentUser post ↔
     User.id currentUser ∉ Post.likes post)
  ∧ (∀ x, x ≠ User.id currentUser →
          (x ∈ Feed.updatedLikes currentUser post ↔ x ∈ Post.likes post))
  ∧ (∀ x, x ∈ Feed.updatedLikes currentUser
                (Post.set_likes post (Feed.updatedLikes currentUser post)) ↔
          x ∈ Post.likes post)
  ∧ Feed.updatedLikes currentUser
      (Post.set_likes post (Feed.updatedLikes currentUser post))
    = (if includes (Post.likes post) (User.id currentUser)
       then filter (λ i, i ≠ User.id currentUser) (Post.likes post)
              ++ [User.id currentUser]
       else Post.likes post)
  ∧ Feed.handleLike (Feed.handleLike db currentUser post) currentUser post
    = Feed.handleLike db currentUser post.
Proof.
  split_and!; [| | | | | unfold Feed.handleLike, Firebase.createPost,
                          Firebase.set_posts; simpl;
                        by rewrite insert_insert_eq].
  - unfold Feed.handleLike, Firebase.createPost. simpl.
    apply lookup_insert_eq.
  - rewrite updatedLikes_elem. intuition congruence.
  - intros x Hx. rewrite updatedLikes_elem. intuition congruence.
  - intros x. rewrite updatedLikes_elem. simpl. rewrite !updatedLikes_elem.
    destruct (decide (x = User.id currentUser));
      destruct (decide (x ∈ Post.likes post)); intuition congruence.
  - unfold Feed.updatedLikes at 1. simpl.
    unfold Feed.updatedLikes.
    destruct (includes (Post.likes post) (User.id currentUser)) eqn:E.
    + rewrite (proj2 (includes_false _ _)); [done|].
      intros Hin%list_elem_of_filter. tauto.
    + rewrite (proj2 (includes_true _ _)) by set_solver.
      apply includes_false in E.
      rewrite filter_app, filter_cons_False, filter_nil, app_nil_r by tauto.
      clear -E. induction (Post.likes post) as [|y l IH]; [done|].
      apply not_elem_of_cons in E as [? ?].
      rewrite filter_cons_True by done. f_equal. auto.
Qed.

(** ** Sharing a post *)

(** C5, counterexample: Carol shares Bob's share of Alice's post.  The new
    post refers to Bob's share, not to Alice's original. *)
Lemma share_of_share_counterexample :
  Post.sharedFromId Samples.share = Some (Post.id Samples.root)
  ∧ Post.sharedFromId
      (Feed.newPost Samples.carol Samples.share "look" [] 5%N 6%N)
    = Some (Post.id Samples.share)
  ∧ Post.sharedFromId
      (Feed.newPost Samples.carol Samples.share "look" [] 5%N 6%N)
    ≠ Post.sharedFromId Samples.share.
Proof.
  split_and!; [reflexivity | reflexivity | discriminate].
Qed.

(** C5, amended.  Sharing a post creates a new post whose [sharedFromId] is
    the id of the post that was shared, whether or not that post is itself
    a share, and whose author is the sharer.  The Firestore-backed feed
    stores it under its own id when at least one friend is selected; with
    no friend selected the object carries an undefined [targetUserIds],
    [setDoc] refuses it and nothing is stored; with no post selected
    nothing is stored either. *)
Theorem handleSharePost_spec (db : Firebase.Firestore) (currentUser : User.t)
    (postToShare : Post.t) (shareCaption : string)
    (selectedFriends : list string) (t1 t2 : N) :
  Post.sharedFromId
    (Feed.newPost currentUser postToShare shareCaption selectedFriends t1 t2)
    = Some (Post.id postToShare)
  ∧ Post.authorId
      (Feed.newPost currentUser postToShare shareCaption selectedFriends t1 t2)
    = User.id currentUser
  ∧ (∀ friendId,
       Firebase.posts
         (Feed.handleSharePost db currentUser (Some postToShare) shareCaption
            (friendId :: selectedFriends) t1 t2)
         !! ("post-share-" +:+ showNum t1)
       = Some (Feed.newPost currentUser postToShare shareCaption
                 (friendId :: selectedFriends) t1 t2)
       ∧ Post.sharedFromId
           (Feed.newPost currentUser postToShare shareCaption
              (friendId :: selectedFriends) t1 t2)
         = Some (Post.id postToShare))
  ∧ Feed.handleSharePost db currentUser (Some postToShare) shareCaption []
      t1 t2 = db
  ∧ Feed.handleSharePost db currentUser None shareCaption selectedFriends
      t1 t2 = db.
Proof.
  split_and!; try done.
  intros friendId. split; [|done].
  unfold Feed.handleSharePost, Firebase.createPostOf, Firebase.createPost.
  simpl. apply lookup_insert_eq.
Qed.

(** * Further properties of the services and components *)

(** ** Sorting by a numeric key *)

Section SortBy.
Context {A : Type} (key : A → N) (le : A → A → bool).
(** [le] orders by [key], upwards or downwards, and accepts ties. *)
Hypothesis le_total : ∀ a b, le a b = true ∨ le b a = true.
Hypothesis le_trans : ∀ a b c, le a b = true → le b c = true → le a c = true.
Hypothesis le_tie : ∀ a b, key a = key b → le a b = true.

Lemma insertBy_perm (x : A) (l : list A) : insertBy le x l ≡ₚ x :: l.
Proof.
  induction l as [|y l IH]; simpl; [done|].
  destruct (le x y); [done|]. rewrite IH. apply Permutation_swap.
Qed.

Lemma sortBy_perm (l : list A) : sortBy le l ≡ₚ l.
Proof.
  induction l as [|x l IH]; simpl; [done|].
  unfold sortBy in IH. by rewrite insertBy_perm, IH.
Qed.

Lemma sortBy_elem_of (l : list A) (x : A) : x ∈ sortBy le l ↔ x ∈ l.
Proof. by rewrite sortBy_perm. Qed.

Lemma insertBy_sorted (x : A) (l : list A) :
  StronglySorted (λ a b, le a b = true) l →
  StronglySorted (λ a b, le a b = true) (insertBy le x l).
Proof.
  induction 1 as [|y l Hl IH Hy]; simpl.
  - repeat constructor.
  - destruct (le x y) eqn:Hxy.
    + constructor; [by constructor|].
      constructor; [done|].
      eapply Forall_impl; [exact Hy|]. intros z Hz. eauto.
    + constructor; [done|].
      assert (le y x = true) by (destruct (le_total x y); congruence).
      apply Forall_forall. intros z Hz.
      apply (elem_of_Permutation_proper _ _ _ (insertBy_perm x l)) in Hz.
      apply elem_of_cons in Hz as [->|Hz]; [done|].
      by eapply Forall_forall in Hy.
Qed.

Lemma sortBy_sorted (l : list A) :
  StronglySorted (λ a b, le a b = true) (sortBy le l).
Proof.
  induction l as [|x l IH]; simpl; [constructor|].
  by apply insertBy_sorted.
Qed.

(** Stability: elements with the same key keep their order. *)
Lemma insertBy_stable (k : N) (x : A) (l : list A) :
  filter (λ a, key a = k) (insertBy le x l)
  = filter (λ a, key a = k) (x :: l).
Proof.
  induction l as [|y l IH]; simpl; [done|].
  destruct (le x y) eqn:Hxy; [done|].
  assert (key x ≠ key y) as Hne.
  { intros Heq. apply le_tie in Heq. congruence. }
  rewrite !filter_cons in *. rewrite IH.
  repeat case_decide; congruence.
Qed.

Lemma sortBy_stable (k : N) (l : list A) :
  filter (λ a, key a = k) (sortBy le l) = filter (λ a, key a = k) l.
Proof.
  induction l as [|x l IH]; [done|].
  change (sortBy le (x :: l)) with (insertBy le x (sortBy le l)).
  by rewrite insertBy_stable, !filter_cons, IH.
Qed.
End SortBy.

Lemma StronglySorted_mono {A} (R R' : A → A → Prop) (l : list A) :
  (∀ a b, R a b → R' a b) → StronglySorted R l → StronglySorted R' l.
Proof.
  intros HR. induction 1 as [|x l Hl IH Hx]; constructor; [done|].
  eapply Forall_impl; [exact Hx|]. auto.
Qed.

Lemma StronglySorted_filter {A} (R : A → A → Prop) (f : A → bool)
    (l : list A) :
  StronglySorted R l → StronglySorted R (List.filter f l).
Proof.
  induction 1 as [|x l Hl IH Hx]; simpl; [constructor|].
  destruct (f x); [|done]. constructor; [done|].
  apply Forall_forall. intros y Hy%list_elem_of_In%filter_In.
  destruct Hy as [Hy%list_elem_of_In _]. by eapply Forall_forall in Hx.
Qed.

(** ** Conversations *)




(** X2. The last message shown for a friend in the chat list is a stored
    message exchanged with that friend whose timestamp is the largest of
    the conversation; none is shown exactly when no message was exchanged. *)
Theorem lastMsg_latest (st : Sync.LocalStorage) (currentUser friend : User.t) :
  match Chat.lastMsg st currentUser friend with
  | Some m =>
      m ∈ Sync.neobook_messages st
      ∧ between (User.id currentUser) (User.id friend) m
      ∧ ∀ m', m' ∈ Sync.neobook_messages st →
              between (User.id currentUser) (User.id friend) m' →
              (Message.timestamp m' ≤ Message.timestamp m)%N
  | None =>
      ∀ m', m' ∈ Sync.neobook_messages st →
            ¬ between (User.id currentUser) (User.id friend) m'
  end.
Proof.
  unfold Chat.lastMsg, Sync.getMessages.
  pose proof (sortBy_perm
    (λ a b, (Message.timestamp b <=? Message.timestamp a)%N)
    (filter (between (User.id currentUser) (User.id friend))
       (Sync.neobook_messages st))) as Hperm.
  pose proof (sortBy_sorted
    (λ a b, (Message.timestamp b <=? Message.timestamp a)%N)) as Hsorted.
  specialize (Hsorted
    ltac:(intros x y; rewrite !N.leb_le; lia)
    ltac:(intros x y z; rewrite !N.leb_le; lia)
    (filter (between (User.id currentUser) (User.id friend))
       (Sync.neobook_messages st))).
  destruct (sortBy _ _) as [|m l] eqn:Hs; simpl.
  - intros m' Hin Hb.
    assert (m' ∈ @nil Message.t) as Hnil
      by (rewrite Hperm; apply list_elem_of_filter; done).
    by apply not_elem_of_nil in Hnil.
  - assert (m ∈ filter (between (User.id currentUser) (User.id friend))
                  (Sync.neobook_messages st)) as Hm
      by (rewrite <- Hperm; left).
    apply list_elem_of_filter in Hm as [Hb Hin]. split_and!; try done.
    intros m' Hin' Hb'.
    assert (m' ∈ m :: l) as Hm'
      by (rewrite Hperm; by apply list_elem_of_filter).
    apply elem_of_cons in Hm' as [->|Hm']; [lia|].
    apply StronglySorted_inv in Hsorted as [_ Hall].
    eapply Forall_forall in Hall; [|done]. by apply N.leb_le.
Qed.

(** ** The feed *)

(** X3. Each load of [subscribeToPosts] delivers every stored post once per
    stored copy, newest first, posts created at the same instant in their
    stored order; the list the feed shows after its visibility filter is
    still newest first and holds exactly the stored posts visible to the
    viewer. *)
Theorem feed_newest_first (st : AsyncLocal.LocalStorage)
    (currentUser : User.t) :
  AsyncLocal.subscribeToPosts st ≡ₚ AsyncLocal.neobook_posts st
  ∧ StronglySorted (λ p q, (Post.createdAt q ≤ Post.createdAt p)%N)
      (AsyncLocal.subscribeToPosts st)
  ∧ (∀ t,
       filter (λ p, Post.createdAt p = t) (AsyncLocal.subscribeToPosts st)
       = filter (λ p, Post.createdAt p = t) (AsyncLocal.neobook_posts st))
  ∧ (∀ p, p ∈ Feed.visiblePosts currentUser (AsyncLocal.subscribeToPosts st)
          ↔ p ∈ AsyncLocal.neobook_posts st
            ∧ Feed.visible currentUser p = true)
  ∧ StronglySorted (λ p q, (Post.createdAt q ≤ Post.createdAt p)%N)
      (Feed.visiblePosts currentUser (AsyncLocal.subscribeToPosts st)).
Proof.
  unfold AsyncLocal.subscribeToPosts.
  assert (StronglySorted (λ p q, (Post.createdAt q ≤ Post.createdAt p)%N)
            (sortBy (λ a b, (Post.createdAt b <=? Post.createdAt a)%N)
               (AsyncLocal.neobook_posts st))) as Hsorted.
  { eapply StronglySorted_mono; [|apply sortBy_sorted].
    - intros x y. apply N.leb_le.
    - intros x y. rewrite !N.leb_le. lia.
    - intros x y z. rewrite !N.leb_le. lia. }
  split_and!.
  - apply sortBy_perm.
  - done.
  - intros t. apply (sortBy_stable Post.createdAt).
    intros x y Heq. apply N.leb_le. lia.
  - intros p. unfold Feed.visiblePosts.
    rewrite list_elem_of_In, filter_In, <- list_elem_of_In, sortBy_elem_of.
    done.
  - by apply StronglySorted_filter.
Qed.

(** X4. A share made with friends selected is visible exactly to those
    friends and to the sharer; a share made with nobody selected is visible
    to every viewer. *)
Theorem share_visibility (currentUser viewer : User.t) (postToShare : Post.t)
    (shareCaption : string) (selectedFriends : list string) (t1 t2 : N) :
  Feed.visible viewer
    (Feed.newPost currentUser postToShare shareCaption selectedFriends t1 t2)
  = true ↔
  selectedFriends = []
  ∨ User.id viewer ∈ selectedFriends
  ∨ User.id viewer = User.id currentUser.
Proof.
  unfold Feed.visible, Feed.newPost. simpl.
  destruct selectedFriends as [|f fs]; simpl.
  - split; [by left | done].
  - rewrite orb_true_iff, includes_true, bool_decide_eq_true.
    split; [intros [?|?]; auto | intros [?|[?|?]]; auto; done].
Qed.

(** ** Friend requests *)

(** An in-place update that does not change the truth of [P] leaves the
    first match where it is. *)
Lemma list_find_alter_pres {A} (P : A → Prop) `{∀ x, Decision (P x)}
    (f : A → A) (j : nat) (l : list A) :
  (∀ x, P (f x) ↔ P x) →
  list_find P (alter f j l)
  = (λ ix, (ix.1, if decide (ix.1 = j) then f ix.2 else ix.2))
      <$> list_find P l.
Proof.
  intros Hf. pose proof (findIndex_alter P f j l Hf) as Hidx.
  destruct (list_find P l) as [[i x]|] eqn:Hl.
  - assert (findIndex P l = Some i) as Hi
      by (apply findIndex_Some_lookup; eauto).
    rewrite Hi in Hidx.
    apply findIndex_Some_lookup in Hidx as [y Hy]. rewrite Hy. simpl.
    f_equal. f_equal.
    apply list_find_Some in Hy as (Hy & _). apply list_find_Some in Hl as (Hx & _).
    rewrite list_lookup_alter in Hy. case_decide as Hd.
    + subst j. rewrite Hx in Hy. simpl in Hy. rewrite decide_True by done.
      congruence.
    + rewrite decide_False by done. congruence.
  - assert (findIndex P l = None) as Hi by (unfold findIndex; by rewrite Hl).
    rewrite Hi in Hidx. unfold findIndex in Hidx.
    by destruct (list_find P (alter f j l)).
Qed.

(** X5. Nobody can send a friend request to themself: when the handle
    resolves to the sender, both local services refuse and leave the store
    as it is. *)
Theorem sendFriendRequest_self :
  (∀ quota st fromId toCustomId target,
     Sync.findUserByCustomId st toCustomId = Some target →
     User.id target = fromId →
     Sync.sendFriendRequest quota st fromId toCustomId
       = (st, (false, "Cannot add yourself.")))
  ∧ (∀ quota st fromId toCustomId target,
       AsyncLocal.findUserByCustomId st toCustomId = Some target →
       User.id target = fromId →
       AsyncLocal.sendFriendRequest quota st fromId toCustomId
         = (st, Resolved (false, "Can't add yourself"))).
Proof.
  split.
  - intros quota st fromId h target Hfind Hid.
    unfold Sync.findUserByCustomId, Sync.getUsers in Hfind.
    apply find_Some_lookup in Hfind as [ti Ht].
    unfold Sync.sendFriendRequest, Sync.getUsers. rewrite Ht.
    destruct (find (λ u, User.id u = fromId) (Sync.neobook_users st))
      as [sender|] eqn:Hs.
    + by rewrite bool_decide_eq_true_2.
    + exfalso. unfold find in Hs.
      apply list_find_Some in Ht as (Hin%list_elem_of_lookup_2 & _).
      destruct (list_find_elem_of (λ u, User.id u = fromId)
                  (Sync.neobook_users st) target Hin Hid) as [[? ?] Hsome].
      by rewrite Hsome in Hs.
  - intros quota st fromId h target Hfind Hid.
    unfold AsyncLocal.findUserByCustomId in Hfind.
    apply find_Some_lookup in Hfind as [ti Ht].
    unfold AsyncLocal.sendFriendRequest. rewrite Ht.
    destruct (find (λ u, User.id u = fromId) (AsyncLocal.neobook_users st))
      as [sender|] eqn:Hs.
    + apply find_Some_lookup in Hs as [si Hs].
      apply list_find_Some in Hs as (_ & Hsid & _).
      rewrite bool_decide_eq_true_2; [done | congruence].
    + exfalso. unfold find in Hs.
      apply list_find_Some in Ht as (Hin%list_elem_of_lookup_2 & _).
      destruct (list_find_elem_of (λ u, User.id u = fromId)
                  (AsyncLocal.neobook_users st) target Hin Hid)
        as [[? ?] Hsome].
      by rewrite Hsome in Hs.
Qed.

Lemma sendFriendRequest_self_witness :
  Sync.sendFriendRequest Samples.roomy Samples.syncStore "u-bob" "bob1"
    = (Samples.syncStore, (false, "Cannot add yourself."))
  ∧ AsyncLocal.sendFriendRequest Samples.roomy Samples.asyncStore
      "u-bob" "bob1"
    = (Samples.asyncStore, Resolved (false, "Can't add yourself")).
Proof.
  destruct sendFriendRequest_self as [Hsync Hasync].
  split.
  - apply (Hsync _ _ _ _ Samples.bob); reflexivity.
  - apply (Hasync _ _ _ _ Samples.bob); reflexivity.
Defined.

(** X6. In the synchronous service a friend request that succeeds appends
    the sender's id to the pending requests of the user found by the handle
    and changes nothing else of that record, and no post or message; sent a
    second time, it is refused with "Request already sent." and the store
    stays as it is. *)
Theorem Sync_sendFriendRequest_once (quota : Sync.LocalStorage → bool)
    (st st' : Sync.LocalStorage) (fromId toCustomId msg : string) :
  (∀ s, quota s = true) →
  Sync.sendFriendRequest quota st fromId toCustomId = (st', (true, msg)) →
  ∃ target,
    Sync.findUserByCustomId st toCustomId = Some target
    ∧ User.id target ≠ fromId
    ∧ (fromId ∉ User.friendRequests target)
    ∧ Sync.findUserByCustomId st' toCustomId
      = Some (User.set_friendRequests target
                (User.friendRequests target ++ [fromId]))
    ∧ length (Sync.neobook_users st') = length (Sync.neobook_users st)
    ∧ Sync.neobook_posts st' = Sync.neobook_posts st
    ∧ Sync.neobook_messages st' = Sync.neobook_messages st
    ∧ Sync.sendFriendRequest quota st' fromId toCustomId
      = (st', (false, "Request already sent.")).
Proof.
  intros Hq. unfold Sync.sendFriendRequest at 1. unfold Sync.getUsers.
  destruct (list_find (λ u, User.userId u = toCustomId)
              (Sync.neobook_users st)) as [[ti target]|] eqn:Ht; [|done].
  destruct (find (λ u, User.id u = fromId) (Sync.neobook_users st))
    as [sender|] eqn:Hs; [|done].
  case_bool_decide as Hself; [done|].
  destruct (includes (User.friends sender) (User.id target)) eqn:Hfr; [done|].
  destruct (includes (User.friendRequests target) fromId) eqn:Hreq; [done|].
  unfold Sync.saveUsers. rewrite Sync_safeSetItem_roomy by done.
  intros [= <- <-]. exists target.
  apply includes_false in Hreq.
  pose proof Hs as [si Hsi]%find_Some_lookup.
  assert (si ≠ ti) as Hne.
  { intros ->. apply list_find_Some in Hsi as (Hl1 & Hid1 & _).
    apply list_find_Some in Ht as (Hl2 & _). congruence. }
  assert (list_find (λ u, User.userId u = toCustomId)
            (alter (λ u, User.set_friendRequests u
                           (User.friendRequests u ++ [fromId]))
                   ti (Sync.neobook_users st))
          = Some (ti, User.set_friendRequests target
                        (User.friendRequests target ++ [fromId]))) as Ht'.
  { rewrite list_find_alter_pres, Ht by done. simpl.
    by rewrite decide_True. }
  assert (list_find (λ u, User.id u = fromId)
            (alter (λ u, User.set_friendRequests u
                           (User.friendRequests u ++ [fromId]))
                   ti (Sync.neobook_users st))
          = Some (si, sender)) as Hs'.
  { rewrite list_find_alter_pres, Hsi by done. simpl.
    by rewrite decide_False. }
  split_and!; try done.
  - unfold Sync.findUserByCustomId, find, Sync.getUsers. by rewrite Ht.
  - unfold Sync.findUserByCustomId, find, Sync.getUsers. simpl.
    by rewrite Ht'.
  - simpl. by rewrite length_alter.
  - unfold Sync.sendFriendRequest, Sync.getUsers, find. simpl.
    rewrite Ht', Hs'. simpl.
    rewrite bool_decide_eq_false_2 by done. rewrite Hfr.
    rewrite (proj2 (includes_true _ _)); [done|]. set_solver.
Qed.

Lemma Sync_sendFriendRequest_once_witness :
  ∃ target,
    Sync.findUserByCustomId Samples.syncStore "alice1" = Some target
    ∧ User.id target ≠ "u-carol"
    ∧ ("u-carol" ∉ User.friendRequests target)
    ∧ Sync.findUserByCustomId
        (fst (Sync.sendFriendRequest Samples.roomy Samples.syncStore
                "u-carol" "alice1")) "alice1"
      = Some (User.set_friendRequests target
                (User.friendRequests target ++ ["u-carol"]))
    ∧ length (Sync.neobook_users
                (fst (Sync.sendFriendRequest Samples.roomy Samples.syncStore
                        "u-carol" "alice1")))
      = length (Sync.neobook_users Samples.syncStore)
    ∧ Sync.neobook_posts
        (fst (Sync.sendFriendRequest Samples.roomy Samples.syncStore
                "u-carol" "alice1"))
      = Sync.neobook_posts Samples.syncStore
    ∧ Sync.neobook_messages
        (fst (Sync.sendFriendRequest Samples.roomy Samples.syncStore
                "u-carol" "alice1"))
      = Sync.neobook_messages Samples.syncStore
    ∧ Sync.sendFriendRequest Samples.roomy
        (fst (Sync.sendFriendRequest Samples.roomy Samples.syncStore
                "u-carol" "alice1")) "u-carol" "alice1"
      = (fst (Sync.sendFriendRequest Samples.roomy Samples.syncStore
                "u-carol" "alice1"), (false, "Request already sent.")).
Proof.
  apply (Sync_sendFriendRequest_once Samples.roomy Samples.syncStore _
           "u-carol" "alice1" "Friend request sent!"); reflexivity.
Defined.

Lemma lookup_alter_field {A B} (g : A → B) (f : A → A) (j i : nat)
    (l : list A) :
  (∀ x, g (f x) = g x) → g <$> (alter f j l !! i) = g <$> (l !! i).
Proof.
  intros Hg. rewrite list_lookup_alter. case_decide; [subst|done].
  destruct (l !! i); simpl; by rewrite ?Hg.
Qed.

(** The users that a successful [acceptFriendRequest] stores in the
    synchronous service. *)
Lemma Sync_accept_users (quota : Sync.LocalStorage → bool)
    (st : Sync.LocalStorage) (a b : string) (now : N) (ui ri : nat)
    (u0 r0 : User.t) :
  (∀ s, quota s = true) →
  list_find (λ u, User.id u = a) (Sync.neobook_users st) = Some (ui, u0) →
  list_find (λ u, User.id u = b) (Sync.neobook_users st) = Some (ri, r0) →
  Sync.neobook_users (Sync.acceptFriendRequest quota st a b now)
  = alter (λ u, User.set_friendRequests u
                  (filter (λ i, i ≠ b) (User.friendRequests u))) ui
      (alter (λ u, User.set_friends u (User.friends u ++ [a])) ri
         (alter (λ u, User.set_friends u (User.friends u ++ [b])) ui
            (Sync.neobook_users st))).
Proof.
  intros Hq Ha Hb.
  unfold Sync.acceptFriendRequest, Sync.getUsers, Sync.saveUsers,
    Sync.saveMessages, Sync.getMessages, Sync.getCurrentUser.
  rewrite Ha, Hb. cbv zeta.
  rewrite !Sync_safeSetItem_roomy by done.
  cbn -[Sync.setCurrentUser alter lookup].
  destruct (Sync.neobook_session st) as [c|]; [case_bool_decide |..];
    rewrite ?(proj1 (Sync_setCurrentUser_frame _ _ _)); done.
Qed.

(** X7. Once a friend request has been accepted in the synchronous service,
    neither of the two users can send the other a new request: it is
    refused with "Already friends." and nothing is stored. *)
Theorem Sync_friends_cannot_request (quota : Sync.LocalStorage → bool)
    (st : Sync.LocalStorage) (a b ha hb : string) (now : N)
    (ta tb : User.t) :
  (∀ s, quota s = true) →
  a ≠ b →
  is_Some (Sync.findUserById st a) →
  is_Some (Sync.findUserById st b) →
  Sync.findUserByCustomId st ha = Some ta → User.id ta = a →
  Sync.findUserByCustomId st hb = Some tb → User.id tb = b →
  Sync.sendFriendRequest quota
    (Sync.acceptFriendRequest quota st a b now) a hb
    = (Sync.acceptFriendRequest quota st a b now, (false, "Already friends."))
  ∧ Sync.sendFriendRequest quota
      (Sync.acceptFriendRequest quota st a b now) b ha
    = (Sync.acceptFriendRequest quota st a b now, (false, "Already friends.")).
Proof.
  intros Hq Hab (ui & u0 & Ha)%find_is_Some_list_find
    (ri & r0 & Hb)%find_is_Some_list_find Hta Hida Htb Hidb.
  unfold Sync.findUserByCustomId, Sync.getUsers in Hta, Htb.
  destruct (Sync_accept quota st a b now ui ri u0 r0 Hq Ha Hb)
    as (ua & ub & Hfa & Hfb & Hba & Hab' & _).
  pose proof (Sync_accept_users quota st a b now ui ri u0 r0 Hq Ha Hb)
    as Husers.
  assert (∀ h t c, find (λ u, User.userId u = h) (Sync.neobook_users st)
                     = Some t → User.id t = c →
            ∃ i t', list_find (λ u, User.userId u = h)
                      (Sync.neobook_users
                         (Sync.acceptFriendRequest quota st a b now))
                    = Some (i, t') ∧ User.id t' = c) as Hhandle.
  { intros h t c [i Hi]%find_Some_lookup Hid. rewrite Husers.
    assert (findIndex (λ u, User.userId u = h) (Sync.neobook_users st)
            = Some i) as Hidx by (apply findIndex_Some_lookup; eauto).
    rewrite <- (findIndex_alter _
      (λ u, User.set_friends u (User.friends u ++ [b])) ui) in Hidx by done.
    rewrite <- (findIndex_alter _
      (λ u, User.set_friends u (User.friends u ++ [a])) ri) in Hidx by done.
    rewrite <- (findIndex_alter _
      (λ u, User.set_friendRequests u
              (filter (λ i, i ≠ b) (User.friendRequests u))) ui)
      in Hidx by done.
    apply findIndex_Some_lookup in Hidx as [t' Ht']. exists i, t'.
    split; [done|].
    apply list_find_Some in Ht' as (Hl' & _).
    apply list_find_Some in Hi as (Hl & _).
    pose proof (f_equal (fmap User.id) Hl') as Hf.
    rewrite !lookup_alter_field, Hl in Hf by done.
    simpl in Hf. congruence. }
  destruct (Hhandle hb tb b Htb Hidb) as (ib & tb' & Hfb' & Hidb').
  destruct (Hhandle ha ta a Hta Hida) as (ia & ta' & Hfa' & Hida').
  unfold Sync.sendFriendRequest, Sync.getUsers.
  rewrite Hfa, Hfb, Hfa', Hfb'.
  rewrite !bool_decide_eq_false_2 by congruence.
  rewrite Hida', Hidb'.
  by rewrite !(proj2 (includes_true _ _)).
Qed.

Lemma Sync_friends_cannot_request_witness :
  Sync.sendFriendRequest Samples.roomy
    (Sync.acceptFriendRequest Samples.roomy Samples.syncStore
       "u-bob" "u-alice" 7%N) "u-bob" "alice1"
    = (Sync.acceptFriendRequest Samples.roomy Samples.syncStore
         "u-bob" "u-alice" 7%N, (false, "Already friends."))
  ∧ Sync.sendFriendRequest Samples.roomy
      (Sync.acceptFriendRequest Samples.roomy Samples.syncStore
         "u-bob" "u-alice" 7%N) "u-alice" "bob1"
    = (Sync.acceptFriendRequest Samples.roomy Samples.syncStore
         "u-bob" "u-alice" 7%N, (false, "Already friends.")).
Proof.
  apply (Sync_friends_cannot_request Samples.roomy Samples.syncStore
           "u-bob" "u-alice" "bob1" "alice1" 7%N Samples.bob Samples.alice);
    try reflexivity; try (by eexists); discriminate.
Defined.

(** ** Signing up *)

Lemma find_app_None {A} (P : A → Prop) `{∀ x, Decision (P x)}
    (l : list A) (x : A) :
  find P l = None → P x → find P (l ++ [x]) = Some x.
Proof.
  unfold find. intros Hnone HP.
  destruct (list_find P l) as [[? ?]|] eqn:Hl; [done|].
  rewrite list_find_app_r by done. simpl.
  by rewrite decide_True.
Qed.

(** X8. Sign-up and sign-in fit together in the promise-returning local
    service.  A handle that is taken is rejected and nothing is stored.
    When [signup] resolves, the handle was free (the availability check of
    the form agrees), the new record, with the generated id and the
    password, is the last stored user and the session, and a later [login]
    with that handle resolves with this very record, whatever the
    password. *)
Theorem signup_then_login :
  (∀ quota st user password now other,
     AsyncLocal.findUserByCustomId st (User.userId user) = Some other →
     AsyncLocal.signup quota st user password now
       = (st, Rejected "User ID already taken"))
  ∧ (∀ quota st st' user password now newUser,
       AsyncLocal.signup quota st user password now
         = (st', Resolved newUser) →
       AsyncLocal.checkIdAvailability st (User.userId user) None = true
       ∧ newUser = User.set_password
                     (User.set_id user ("user-" +:+ showNum now))
                     (Some password)
       ∧ AsyncLocal.neobook_users st'
         = AsyncLocal.neobook_users st ++ [newUser]
       ∧ AsyncLocal.neobook_session st' = Some (User.id newUser)
       ∧ AsyncLocal.neobook_posts st' = AsyncLocal.neobook_posts st
       ∧ AsyncLocal.neobook_messages st' = AsyncLocal.neobook_messages st
       ∧ ∀ anyPassword,
           AsyncLocal.login quota st' (User.userId user) anyPassword
             = (st', Resolved newUser)).
Proof.
  split.
  - intros quota st user password now other Hother.
    unfold AsyncLocal.findUserByCustomId in Hother.
    unfold AsyncLocal.signup. by rewrite Hother.
  - intros quota st st' user password now newUser.
    unfold AsyncLocal.signup, AsyncLocal.setStored.
    destruct (find (λ u, User.userId u = User.userId user)
                (AsyncLocal.neobook_users st)) as [?|] eqn:Hfree; [done|].
    destruct (quota _) eqn:Hq1; [|done].
    destruct (quota (AsyncLocal.set_session _ _)) eqn:Hq2; [|done].
    intros [= <- <-]. split_and!; try done.
    + unfold AsyncLocal.checkIdAvailability. by rewrite Hfree.
    + intros pw. unfold AsyncLocal.login, AsyncLocal.setStored.
      cbn [AsyncLocal.neobook_users AsyncLocal.set_session
           AsyncLocal.set_users].
      rewrite (find_app_None _ _ _ Hfree) by done.
      unfold AsyncLocal.set_session, AsyncLocal.set_users in *.
      cbn [AsyncLocal.neobook_users AsyncLocal.neobook_posts
           AsyncLocal.neobook_messages AsyncLocal.neobook_session] in *.
      by rewrite Hq2.
Qed.

Lemma signup_then_login_witness :
  AsyncLocal.signup Samples.roomy Samples.asyncStore Samples.bob "x" 9%N
    = (Samples.asyncStore, Rejected "User ID already taken")
  ∧ AsyncLocal.login Samples.roomy
      (fst (AsyncLocal.signup Samples.roomy Samples.asyncStore
              Samples.dave "pw9" 9%N)) "dave1" "wrong"
    = (fst (AsyncLocal.signup Samples.roomy Samples.asyncStore
              Samples.dave "pw9" 9%N),
       Resolved (User.set_password (User.set_id Samples.dave "user-9")
                   (Some "pw9"))).
Proof.
  destruct signup_then_login as [Htaken Hok].
  split.
  - apply (Htaken _ _ _ _ _ Samples.bob). reflexivity.
  - apply (Hok Samples.roomy Samples.asyncStore _ Samples.dave "pw9" 9%N).
    reflexivity.
Defined.

(** X9. A sign-up can fail after the account is created: when the browser
    accepts the write of the users but refuses the write of the session, the
    promise is rejected with the storage-full error although the new record
    is stored, and a second attempt is rejected because the handle is now
    taken. *)
Theorem signup_half_done (quota : AsyncLocal.LocalStorage → bool)
    (st : AsyncLocal.LocalStorage) (user : User.t) (password : string)
    (now now' : N) :
  AsyncLocal.findUserByCustomId st (User.userId user) = None →
  quota (AsyncLocal.set_users st
           (AsyncLocal.neobook_users st
              ++ [User.set_password
                    (User.set_id user ("user-" +:+ showNum now))
                    (Some password)])) = true →
  quota (AsyncLocal.set_session
           (AsyncLocal.set_users st
              (AsyncLocal.neobook_users st
                 ++ [User.set_password
                       (User.set_id user ("user-" +:+ showNum now))
                       (Some password)]))
           (Some ("user-" +:+ showNum now))) = false →
  AsyncLocal.signup quota st user password now
    = (AsyncLocal.set_users st
         (AsyncLocal.neobook_users st
            ++ [User.set_password
                  (User.set_id user ("user-" +:+ showNum now))
                  (Some password)]),
       Rejected AsyncLocal.storageFull)
  ∧ AsyncLocal.signup quota
      (fst (AsyncLocal.signup quota st user password now)) user password now'
    = (fst (AsyncLocal.signup quota st user password now),
       Rejected "User ID already taken").
Proof.
  intros Hfree Hq1 Hq2. unfold AsyncLocal.findUserByCustomId in Hfree.
  assert (AsyncLocal.signup quota st user password now
          = (AsyncLocal.set_users st
               (AsyncLocal.neobook_users st
                  ++ [User.set_password
                        (User.set_id user ("user-" +:+ showNum now))
                        (Some password)]),
             Rejected AsyncLocal.storageFull)) as Hfirst.
  { unfold AsyncLocal.signup, AsyncLocal.setStored.
    rewrite Hfree, Hq1.
    cbn [User.id User.set_password User.set_id]. by rewrite Hq2. }
  split; [done|]. rewrite Hfirst. cbn [fst].
  unfold AsyncLocal.signup. cbn [AsyncLocal.neobook_users AsyncLocal.set_users].
  by rewrite (find_app_None _ _ _ Hfree).
Qed.

Lemma signup_half_done_witness :
  AsyncLocal.signup Samples.noSession Samples.asyncStore Samples.dave
    "pw9" 9%N
    = (AsyncLocal.set_users Samples.asyncStore
         (AsyncLocal.neobook_users Samples.asyncStore
            ++ [User.set_password (User.set_id Samples.dave "user-9")
                  (Some "pw9")]),
       Rejected AsyncLocal.storageFull)
  ∧ AsyncLocal.signup Samples.noSession
      (fst (AsyncLocal.signup Samples.noSession Samples.asyncStore
              Samples.dave "pw9" 9%N)) Samples.dave "pw9" 10%N
    = (fst (AsyncLocal.signup Samples.noSession Samples.asyncStore
              Samples.dave "pw9" 9%N),
       Rejected "User ID already taken").
Proof.
  apply (signup_half_done Samples.noSession Samples.asyncStore Samples.dave
           "pw9" 9%N 10%N); reflexivity.
Defined.

(** ** Unique handles in the synchronous service *)

(** Replacing the record that has the id of [upd] keeps the handles distinct
    when no record with another id has the handle of [upd]. *)
Lemma replace_keeps_handles (upd : User.t) (users : list User.t) :
  NoDup (User.id <$> users) →
  NoDup (User.userId <$> users) →
  Forall (λ u, User.userId u = User.userId upd → User.id u = User.id upd)
    users →
  NoDup (User.userId <$>
           ((λ u, if bool_decide (User.id u = User.id upd) then upd else u)
              <$> users)).
Proof.
  induction users as [|x l IH]; intros Hids Hhandles Hfree; [constructor|].
  rewrite !fmap_cons in *.
  apply NoDup_cons in Hids as [Hx Hids].
  apply NoDup_cons in Hhandles as [Hhx Hhandles].
  apply Forall_cons in Hfree as [Hfx Hfree].
  apply NoDup_cons. split; [|by apply IH].
  intros Hin. apply list_elem_of_fmap in Hin as (y' & Heq & Hin).
  apply list_elem_of_fmap in Hin as (y & -> & Hy).
  assert (User.id y ≠ User.id x) as Hne.
  { intros Hid. apply Hx. rewrite <- Hid. by apply list_elem_of_fmap_2. }
  rewrite Forall_forall in Hfree.
  case_bool_decide as Hxi; case_bool_decide as Hyi.
  - congruence.
  - apply Hne. rewrite Hxi. apply Hfree; [done|]. congruence.
  - apply Hxi. apply Hfx. congruence.
  - apply Hhx. rewrite Heq. by apply list_elem_of_fmap_2.
Qed.

(** X10. In the synchronous service the handles of the stored users stay
    pairwise distinct: [createUser] refuses a taken handle and otherwise
    appends the record; [updateUser], on a store whose ids are distinct too,
    keeps the ids as they are and the handles distinct.  This holds whether
    or not the browser accepts the write. *)
Theorem Sync_handles_stay_unique (quota : Sync.LocalStorage → bool)
    (st : Sync.LocalStorage) (user : User.t) :
  NoDup (User.userId <$> Sync.neobook_users st) →
  NoDup (User.userId <$>
           Sync.neobook_users (fst (Sync.createUser quota st user)))
  ∧ (snd (Sync.createUser quota st user) = true →
     Sync.neobook_users (fst (Sync.createUser quota st user))
       = Sync.neobook_users st ++ [user])
  ∧ (snd (Sync.createUser quota st user) = false →
     fst (Sync.createUser quota st user) = st)
  ∧ (User.id <$> Sync.neobook_users (fst (Sync.updateUser quota st user))
     = User.id <$> Sync.neobook_users st)
  ∧ (NoDup (User.id <$> Sync.neobook_users st) →
     NoDup (User.userId <$>
              Sync.neobook_users (fst (Sync.updateUser quota st user)))).
Proof.
  intros Hhandles. split_and!.
  - unfold Sync.createUser, Sync.getUsers, Sync.saveUsers, Sync.safeSetItem.
    case_bool_decide as Htaken; [done|].
    destruct (quota _); [|done]. simpl.
    rewrite fmap_app. apply NoDup_app. split_and!; [done| |apply NoDup_singleton].
    intros h Hh Hin. apply list_elem_of_singleton in Hin as ->.
    apply Htaken, Exists_exists.
    apply list_elem_of_fmap in Hh as (u & ? & ?). eauto.
  - unfold Sync.createUser, Sync.getUsers, Sync.saveUsers, Sync.safeSetItem.
    case_bool_decide; [done|]. by destruct (quota _).
  - unfold Sync.createUser, Sync.getUsers, Sync.saveUsers, Sync.safeSetItem.
    case_bool_decide; [done|]. by destruct (quota _).
  - unfold Sync.updateUser, Sync.getUsers, Sync.saveUsers, Sync.safeSetItem.
    destruct (find _ _); [done|]. destruct (quota _); [|done].
    cbn [fst]. rewrite (proj1 (Sync_setCurrentUser_frame _ _ _)).
    cbn [Sync.neobook_users Sync.set_users].
    rewrite <- list_fmap_compose. apply list_fmap_ext.
    intros i u _. simpl. by case_bool_decide.
  - intros Hids.
    unfold Sync.updateUser, Sync.getUsers, Sync.saveUsers, Sync.safeSetItem.
    destruct (find _ _) eqn:Hfind; [done|]. destruct (quota _); [|done].
    cbn [fst]. rewrite (proj1 (Sync_setCurrentUser_frame _ _ _)).
    cbn [Sync.neobook_users Sync.set_users].
    apply replace_keeps_handles; [done..|].
    unfold find in Hfind. destruct (list_find _ _) eqn:Hl; [done|].
    apply list_find_None in Hl.
    eapply Forall_impl; [exact Hl|]. simpl. intros u Hu Hh.
    destruct (decide (User.id u = User.id user)); [done|]. exfalso. auto.
Qed.

Lemma Sync_handles_stay_unique_witness :
  NoDup (User.userId <$>
           Sync.neobook_users
             (fst (Sync.createUser Samples.roomy Samples.syncStore
                     Samples.dave)))
  ∧ NoDup (User.userId <$>
             Sync.neobook_users
               (fst (Sync.updateUser Samples.roomy Samples.syncStore
                       Samples.bobAsAlice))).
Proof.
  assert (NoDup (User.userId <$> Sync.neobook_users Samples.syncStore))
    as Hh by (apply (bool_decide_unpack _); vm_compute; exact I).
  assert (NoDup (User.id <$> Sync.neobook_users Samples.syncStore))
    as Hi by (apply (bool_decide_unpack _); vm_compute; exact I).
  split.
  - exact (proj1 (Sync_handles_stay_unique Samples.roomy Samples.syncStore
                    Samples.dave Hh)).
  - destruct (Sync_handles_stay_unique Samples.roomy Samples.syncStore
                Samples.bobAsAlice Hh) as (_ & _ & _ & _ & Hupd).
    exact (Hupd Hi).
Defined.

(** X11. A successful [updateUser] of the synchronous service makes the
    given record the session user, whoever was signed in; and an update
    whose id and handle no stored user has reports success without storing
    the record among the users. *)
Theorem Sync_updateUser_session (quota : Sync.LocalStorage → bool)
    (st : Sync.LocalStorage) (updatedUser : User.t) :
  (∀ s, quota s = true) →
  (snd (Sync.updateUser quota st updatedUser) = true →
   Sync.getCurrentUser (fst (Sync.updateUser quota st updatedUser))
     = Some updatedUser)
  ∧ (Forall (λ u, User.id u ≠ User.id updatedUser
                  ∧ User.userId u ≠ User.userId updatedUser)
       (Sync.neobook_users st) →
     Sync.updateUser quota st updatedUser
       = (Sync.set_session st (Some updatedUser), true)).
Proof.
  intros Hq. split.
  - unfold Sync.updateUser, Sync.getUsers, Sync.saveUsers.
    destruct (find _ _); [done|].
    rewrite Sync_safeSetItem_roomy by done. intros _. cbn [fst].
    unfold Sync.setCurrentUser. by rewrite Sync_safeSetItem_roomy.
  - intros Hnone.
    unfold Sync.updateUser, Sync.getUsers, Sync.saveUsers, find.
    destruct (list_find _ _) as [[i x]|] eqn:Hl.
    + apply list_find_Some in Hl as (Hx%list_elem_of_lookup_2 & [? ?] & _).
      rewrite Forall_forall in Hnone. destruct (Hnone x Hx). done.
    + simpl. rewrite Sync_safeSetItem_roomy by done.
      unfold Sync.setCurrentUser. rewrite Sync_safeSetItem_roomy by done.
      cbn [fst]. f_equal. unfold Sync.set_session, Sync.set_users. simpl.
      f_equal. clear Hl. induction Hnone as [|u l [Hu _] _ IH]; [done|].
      rewrite fmap_cons, IH. by rewrite bool_decide_eq_false_2.
Qed.

Lemma Sync_updateUser_session_witness :
  Sync.getCurrentUser
    (fst (Sync.updateUser Samples.roomy Samples.syncStore Samples.dave))
    = Some Samples.dave
  ∧ Sync.updateUser Samples.roomy Samples.syncStore Samples.dave
    = (Sync.set_session Samples.syncStore (Some Samples.dave), true).
Proof.
  destruct (Sync_updateUser_session Samples.roomy Samples.syncStore
              Samples.dave) as [Hsess Hnone]; [reflexivity|].
  split.
  - apply Hsess. reflexivity.
  - apply Hnone. repeat constructor; discriminate.
Defined.

(** ** Updating a user in the promise-returning local service *)

(** Overwriting an element by one on which [P] has the same truth leaves
    the first match where it is. *)
Lemma list_find_insert_pres {A} (P : A → Prop) `{∀ x, Decision (P x)}
    (x y : A) (i : nat) (l : list A) :
  l !! i = Some y → (P x ↔ P y) →
  list_find P (<[i:=x]> l)
  = (λ ix, (ix.1, if decide (ix.1 = i) then x else ix.2)) <$> list_find P l.
Proof.
  revert i. induction l as [|a l IH]; intros [|i] Hy HP; simplify_eq/=.
  - destruct (decide (P x)), (decide (P y)); try tauto; try done.
    rewrite <- option_fmap_compose. apply option_fmap_ext.
    by intros [j z].
  - destruct (decide (P a)); [done|].
    change (list_insert i x l) with (<[i:=x]> l).
    rewrite IH by done. rewrite <- !option_fmap_compose.
    apply option_fmap_ext. intros [j z]. simpl.
    destruct (decide (j = i)), (decide (S j = S i)); congruence.
Qed.

(** X12. [updateUser] of the promise-returning local service: for an id
    that is not stored it answers [false] and changes nothing; when it
    answers [true], [getUser] returns the given record for its id and what
    it returned before for every other id, and the number of users, the
    posts, the messages and the session are as before. *)
Theorem AsyncLocal_updateUser_roundtrip :
  (∀ quota st updatedUser,
     AsyncLocal.getUser st (User.id updatedUser) = None →
     AsyncLocal.updateUser quota st updatedUser = (st, false))
  ∧ (∀ quota st st' updatedUser,
       AsyncLocal.updateUser quota st updatedUser = (st', true) →
       AsyncLocal.getUser st' (User.id updatedUser) = Some updatedUser
       ∧ (∀ uid, uid ≠ User.id updatedUser →
                 AsyncLocal.getUser st' uid = AsyncLocal.getUser st uid)
       ∧ length (AsyncLocal.neobook_users st')
         = length (AsyncLocal.neobook_users st)
       ∧ AsyncLocal.neobook_posts st' = AsyncLocal.neobook_posts st
       ∧ AsyncLocal.neobook_messages st' = AsyncLocal.neobook_messages st
       ∧ AsyncLocal.neobook_session st' = AsyncLocal.neobook_session st).
Proof.
  split.
  - intros quota st upd Hnone.
    unfold AsyncLocal.getUser, find in Hnone.
    unfold AsyncLocal.updateUser, findIndex.
    by destruct (list_find _ _).
  - intros quota st st' upd.
    unfold AsyncLocal.updateUser, findIndex, AsyncLocal.setStored.
    destruct (list_find (λ u, User.id u = User.id upd)
                (AsyncLocal.neobook_users st)) as [[i y]|] eqn:Hl; [|done].
    simpl. destruct (quota _); [|done]. intros [= <-].
    pose proof Hl as (Hy & Hid & _)%list_find_Some.
    assert (∀ c, list_find (λ u, User.id u = c)
                   (<[i:=upd]> (AsyncLocal.neobook_users st))
                 = (λ ix, (ix.1, if decide (ix.1 = i) then upd else ix.2))
                     <$> list_find (λ u, User.id u = c)
                           (AsyncLocal.neobook_users st)) as Hfind.
    { intros c. apply (list_find_insert_pres _ upd y); [done|].
      by rewrite Hid. }
    split_and!; try done.
    + unfold AsyncLocal.getUser, find. simpl. rewrite Hfind, Hl. simpl.
      by rewrite decide_True.
    + intros uid Hne. unfold AsyncLocal.getUser, find. simpl.
      rewrite Hfind.
      destruct (list_find (λ u, User.id u = uid)
                  (AsyncLocal.neobook_users st)) as [[j z]|] eqn:Hz;
        [|done].
      simpl. case_decide as Hj; [|done]. subst j.
      apply list_find_Some in Hz as (Hz & Hzid & _). congruence.
    + simpl. by rewrite length_insert.
Qed.

Lemma AsyncLocal_updateUser_roundtrip_witness :
  AsyncLocal.updateUser Samples.roomy Samples.asyncStore Samples.dave
    = (Samples.asyncStore, false)
  ∧ AsyncLocal.getUser
      (fst (AsyncLocal.updateUser Samples.roomy Samples.asyncStore
              Samples.bobAsAlice)) "u-bob" = Some Samples.bobAsAlice.
Proof.
  destruct AsyncLocal_updateUser_roundtrip as [Hnone Hok].
  split.
  - apply Hnone. reflexivity.
  - apply (Hok Samples.roomy Samples.asyncStore _ Samples.bobAsAlice).
    reflexivity.
Defined.

(** ** More on accepting a friend request *)

(** X13. [acceptFriendRequest] of the promise-returning local service does
    nothing, and resolves, when either user is not stored; and whatever the
    outcome it never stores an id twice in a list of friends: lists without
    duplicates stay without duplicates, also when the same request is
    accepted again. *)
Theorem AsyncLocal_accept_no_duplicates
    (quota : AsyncLocal.LocalStorage → bool) (st : AsyncLocal.LocalStorage)
    (userId requesterId : string) (t1 t2 : N) :
  (AsyncLocal.getUser st userId = None
   ∨ AsyncLocal.getUser st requesterId = None →
   AsyncLocal.acceptFriendRequest quota st userId requesterId t1 t2
     = (st, Resolved ()))
  ∧ (Forall (λ u, NoDup (User.friends u)) (AsyncLocal.neobook_users st) →
     Forall (λ u, NoDup (User.friends u))
       (AsyncLocal.neobook_users
          (fst (AsyncLocal.acceptFriendRequest quota st userId requesterId
                  t1 t2)))).
Proof.
  split.
  - unfold AsyncLocal.getUser, find, AsyncLocal.acceptFriendRequest,
      findIndex.
    intros [Hnone | Hnone];
      destruct (list_find (λ u, User.id u = userId) _) as [[? ?]|],
               (list_find (λ u, User.id u = requesterId) _) as [[? ?]|];
      done.
  - intros Hnodup.
    unfold AsyncLocal.acceptFriendRequest, AsyncLocal.sendMessage,
      AsyncLocal.setStored.
    destruct (findIndex (λ u, User.id u = userId) _) as [ui|]; [|done].
    destruct (findIndex (λ u, User.id u = requesterId) _) as [ri|]; [|done].
    destruct (quota _); [|done].
    assert (∀ c, ∀ u : User.t, NoDup (User.friends u) →
              NoDup (User.friends
                       (if includes (User.friends u) c then u
                        else User.set_friends u (User.friends u ++ [c]))))
      as Hpush.
    { intros c u Hu. destruct (includes (User.friends u) c) eqn:E; [done|].
      apply includes_false in E. simpl. apply NoDup_app.
      split_and!; [done | | apply NoDup_singleton].
      intros x Hx ->%list_elem_of_singleton. done. }
    match goal with
    | |- context [quota ?s] => destruct (quota s)
    end; cbn [fst AsyncLocal.neobook_users AsyncLocal.set_users
              AsyncLocal.set_messages];
      (apply Forall_alter; [|by intros u _ Hu]);
      (apply Forall_alter; [|intros u _ Hu; by apply Hpush]);
      (apply Forall_alter; [|intros u _ Hu; by apply Hpush]); done.
Qed.

Lemma AsyncLocal_accept_no_duplicates_witness :
  AsyncLocal.acceptFriendRequest Samples.roomy Samples.asyncStore
    "u-bob" "u-nobody" 7%N 8%N = (Samples.asyncStore, Resolved ())
  ∧ Forall (λ u, NoDup (User.friends u))
      (AsyncLocal.neobook_users
         (fst (AsyncLocal.acceptFriendRequest Samples.roomy
                 (fst (AsyncLocal.acceptFriendRequest Samples.roomy
                         Samples.asyncStore "u-bob" "u-alice" 7%N 8%N))
                 "u-bob" "u-alice" 9%N 10%N))).
Proof.
  split.
  - apply (AsyncLocal_accept_no_duplicates Samples.roomy Samples.asyncStore
             "u-bob" "u-nobody" 7%N 8%N).
    right. reflexivity.
  - apply (AsyncLocal_accept_no_duplicates Samples.roomy).
    apply (AsyncLocal_accept_no_duplicates Samples.roomy).
    apply (bool_decide_unpack _). vm_compute. exact I.
Defined.

(** X14. [acceptFriendRequest] of the Firestore service is not atomic.
    When the accepter's document is missing nothing is written.  When the
    accepter's document exists and the requester's does not, the error is
    caught after the first write: the requester is already in the accepter's
    friends and out of the pending requests, the requester has no document,
    and no message is stored. *)
Theorem Firebase_accept_half_done (db : Firebase.Firestore)
    (userId requesterId : string) (t1 t2 : N) (autoId : string) :
  (Firebase.getUser db userId = None →
   Firebase.acceptFriendRequest db userId requesterId t1 t2 autoId
     = (db, true))
  ∧ (∀ user,
       Firebase.getUser db userId = Some user →
       Firebase.getUser db requesterId = None →
       snd (Firebase.acceptFriendRequest db userId requesterId t1 t2 autoId)
         = true
       ∧ Firebase.getUser
           (fst (Firebase.acceptFriendRequest db userId requesterId t1 t2
                   autoId)) userId
         = Some (User.set_friendRequests
                   (User.set_friends user
                      (Firebase.arrayUnion requesterId (User.friends user)))
                   (Firebase.arrayRemove requesterId
                      (User.friendRequests user)))
       ∧ requesterId ∈ Firebase.arrayUnion requesterId (User.friends user)
       ∧ Firebase.getUser
           (fst (Firebase.acceptFriendRequest db userId requesterId t1 t2
                   autoId)) requesterId = None
       ∧ Firebase.messages
           (fst (Firebase.acceptFriendRequest db userId requesterId t1 t2
                   autoId)) = Firebase.messages db).
Proof.
  unfold Firebase.getUser, Firebase.acceptFriendRequest, Firebase.updateDoc.
  split.
  - by intros ->.
  - intros user Hu Hr. rewrite Hu.
    cbn [Firebase.users Firebase.set_users].
    assert (userId ≠ requesterId) as Hne by congruence.
    rewrite lookup_insert_ne, Hr by done.
    cbn [fst snd Firebase.users Firebase.set_users Firebase.messages].
    rewrite lookup_insert_eq, lookup_insert_ne, Hr by done.
    split_and!; try done.
    unfold Firebase.arrayUnion.
    destruct (includes _ _) eqn:E; [by apply includes_true in E|set_solver].
Qed.

Lemma Firebase_accept_half_done_witness :
  snd (Firebase.acceptFriendRequest Samples.fireStore "u-bob" "u-ghost"
         7%N 8%N "m-1") = true
  ∧ Firebase.getUser
      (fst (Firebase.acceptFriendRequest Samples.fireStore "u-bob" "u-ghost"
              7%N 8%N "m-1")) "u-bob"
    = Some (User.set_friendRequests
              (User.set_friends Samples.bob
                 (Firebase.arrayUnion "u-ghost" (User.friends Samples.bob)))
              (Firebase.arrayRemove "u-ghost"
                 (User.friendRequests Samples.bob)))
  ∧ "u-ghost" ∈ Firebase.arrayUnion "u-ghost" (User.friends Samples.bob)
  ∧ Firebase.getUser
      (fst (Firebase.acceptFriendRequest Samples.fireStore "u-bob" "u-ghost"
              7%N 8%N "m-1")) "u-ghost" = None
  ∧ Firebase.messages
      (fst (Firebase.acceptFriendRequest Samples.fireStore "u-bob" "u-ghost"
              7%N 8%N "m-1")) = Firebase.messages Samples.fireStore.
Proof.
  apply (proj2 (Firebase_accept_half_done Samples.fireStore "u-bob" "u-ghost"
                  7%N 8%N "m-1") Samples.bob); reflexivity.
Defined.

Lemma arrayUnion_elem (x : string) (l : list string) :
  x ∈ l → Firebase.arrayUnion x l = l.
Proof.
  intros Hin. unfold Firebase.arrayUnion.
  by rewrite (proj2 (includes_true _ _)).
Qed.

Lemma arrayRemove_not_elem (x : string) (l : list string) :
  x ∉ l → Firebase.arrayRemove x l = l.
Proof.
  unfold Firebase.arrayRemove. induction l as [|y l IH]; [done|].
  intros [? ?]%not_elem_of_cons.
  rewrite filter_cons_True by done. f_equal. auto.
Qed.

(** X15. In the Firestore service accepting the same request a second time
    changes no user document: the two lists of friends and the pending
    requests are as the first acceptance left them.  Only a second
    announcement is stored. *)
Theorem Firebase_accept_again (db db' : Firebase.Firestore)
    (userId requesterId : string) (t1 t2 t3 t4 : N) (autoId autoId' : string) :
  Firebase.acceptFriendRequest db userId requesterId t1 t2 autoId
    = (db', false) →
  snd (Firebase.acceptFriendRequest db' userId requesterId t3 t4 autoId')
    = false
  ∧ Firebase.users
      (fst (Firebase.acceptFriendRequest db' userId requesterId t3 t4 autoId'))
    = Firebase.users db'
  ∧ ∃ requester,
      Firebase.getUser db' requesterId = Some requester
      ∧ Firebase.messages
          (fst (Firebase.acceptFriendRequest db' userId requesterId t3 t4
                  autoId'))
        = <[autoId' := announcement requesterId userId
                         (User.name requester) t3 t4]>
            (Firebase.messages db').
Proof.
  intros Hok.
  destruct (Firebase_accept db db' userId requesterId t1 t2 autoId Hok)
    as (u0 & r0 & ua & ub & _ & _ & Hua & Hub & Hba & Hab & Hreq & _).
  unfold Firebase.acceptFriendRequest, Firebase.updateDoc, Firebase.getUser.
  rewrite Hua. cbn [Firebase.users Firebase.set_users].
  assert (User.set_friendRequests
            (User.set_friends ua
               (Firebase.arrayUnion requesterId (User.friends ua)))
            (Firebase.arrayRemove requesterId (User.friendRequests ua))
          = ua) as ->.
  { rewrite arrayUnion_elem, arrayRemove_not_elem by done. by destruct ua. }
  rewrite (insert_id _ _ _ Hua), Hub.
  cbn [Firebase.users Firebase.set_users].
  assert (User.set_friends ub (Firebase.arrayUnion userId (User.friends ub))
          = ub) as ->.
  { rewrite arrayUnion_elem by done. by destruct ub. }
  rewrite (insert_id _ _ _ Hub), Hub.
  split_and!; [done | done |]. by exists ub.
Qed.

Lemma Firebase_accept_again_witness :
  Firebase.users
    (fst (Firebase.acceptFriendRequest
            (fst (Firebase.acceptFriendRequest Samples.fireStore
                    "u-bob" "u-alice" 7%N 8%N "m-1"))
            "u-bob" "u-alice" 9%N 10%N "m-2"))
  = Firebase.users
      (fst (Firebase.acceptFriendRequest Samples.fireStore
              "u-bob" "u-alice" 7%N 8%N "m-1")).
Proof.
  apply (Firebase_accept_again Samples.fireStore _ "u-bob" "u-alice"
           7%N 8%N 9%N 10%N "m-1" "m-2").
  reflexivity.
Defined.

(** ** Likes and comments in the feed of the synchronous variant *)

Lemma find_None_Forall {A} (P : A → Prop) `{∀ x, Decision (P x)}
    (l : list A) :
  find P l = None ↔ Forall (λ x, ¬ P x) l.
Proof.
  unfold find. split.
  - intros Hn. apply (proj1 (list_find_None P l)).
    by destruct (list_find P l).
  - intros Hf. apply (proj2 (list_find_None P l)) in Hf. by rewrite Hf.
Qed.

(** X16. In the feed of the synchronous variant a like or a comment never
    adds, removes or reorders posts: the ids of the stored posts are the
    same afterwards.  For a post id that is not stored (a post evicted or
    deleted meanwhile) both do nothing.  A comment with text goes to the end
    of the comments of the first stored post with that id, whose other
    fields, likes included, are untouched. *)
Theorem SyncFeed_like_comment (quota : Sync.LocalStorage → bool)
    (trim : string → string) (st : Sync.LocalStorage) (currentUser : User.t)
    (post : Post.t) (postId commentText : string) (t1 t2 : N) :
  Post.id <$> Sync.neobook_posts (SyncFeed.handleLike quota st currentUser post)
    = Post.id <$> Sync.neobook_posts st
  ∧ Post.id <$> Sync.neobook_posts
                  (SyncFeed.handleComment quota trim st currentUser postId
                     commentText t1 t2)
    = Post.id <$> Sync.neobook_posts st
  ∧ (SyncFeed.getPost st (Post.id post) = None →
     Sync.neobook_posts (SyncFeed.handleLike quota st currentUser post)
       = Sync.neobook_posts st)
  ∧ (SyncFeed.getPost st postId = None →
     SyncFeed.handleComment quota trim st currentUser postId commentText t1 t2
       = st)
  ∧ (∀ p, (∀ s, quota s = true) → trim commentText ≠ "" →
          SyncFeed.getPost st postId = Some p →
          SyncFeed.getPost
            (SyncFeed.handleComment quota trim st currentUser postId
               commentText t1 t2) postId
          = Some (Post.set_comments p
                    (Post.comments p
                       ++ [Comment.mk ("c-" +:+ showNum t1)
                             (User.id currentUser) commentText t2]))).
Proof.
  split_and!.
  - unfold SyncFeed.handleLike, Sync.savePosts, Sync.safeSetItem,
      Sync.getPosts.
    destruct (quota _); [|done]. simpl.
    rewrite <- list_fmap_compose. apply list_fmap_ext.
    intros i p _. simpl. by case_bool_decide.
  - unfold SyncFeed.handleComment, Sync.savePosts, Sync.safeSetItem,
      Sync.getPosts.
    case_bool_decide; [done|].
    destruct (findIndex _ _) as [i|]; [|done].
    destruct (quota _); [|done]. simpl.
    rewrite (list_fmap_alter _ _ (λ x, x)), list_alter_id; [done..|].
    by apply Forall_true.
  - unfold SyncFeed.getPost, Sync.getPosts.
    intros Hnone%find_None_Forall.
    unfold SyncFeed.handleLike, Sync.savePosts, Sync.safeSetItem,
      Sync.getPosts.
    destruct (quota _); [|done]. simpl.
    induction Hnone as [|q l Hq _ IH]; [done|].
    rewrite fmap_cons, IH. by rewrite bool_decide_eq_false_2.
  - unfold SyncFeed.getPost, SyncFeed.handleComment, find, findIndex,
      Sync.getPosts.
    intros Hnone. case_bool_decide; [done|].
    by destruct (list_find _ _).
  - intros p Hq Htext Hp.
    unfold SyncFeed.getPost, Sync.getPosts in *.
    apply find_Some_lookup in Hp as [i Hi].
    unfold SyncFeed.handleComment, Sync.savePosts, findIndex, Sync.getPosts.
    rewrite bool_decide_eq_false_2 by done.
    rewrite Hi. cbn [fmap option_fmap option_map fst].
    rewrite Sync_safeSetItem_roomy by done.
    cbn [fst Sync.neobook_posts Sync.set_posts].
    unfold find. rewrite list_find_alter_pres, Hi by done. simpl.
    by rewrite decide_True.
Qed.

(** ** The stores stay bounded *)

Lemma Sync_sendMessage_messages (quota : Sync.LocalStorage → bool)
    (st : Sync.LocalStorage) (msg : Message.t) :
  (∀ s, quota s = true) →
  length (Sync.neobook_messages st) ≤ 500 →
  length (Sync.neobook_messages (Sync.sendMessage quota st msg)) ≤ 500.
Proof.
  intros Hq Hlen.
  unfold Sync.sendMessage, Sync.saveMessages, Sync.getMessages.
  rewrite Sync_safeSetItem_roomy by done.
  cbn [fst Sync.neobook_messages Sync.set_messages].
  assert (length (Sync.neobook_messages st ++ [msg])
          = S (length (Sync.neobook_messages st))) as Hl
    by (rewrite length_app; simpl; lia).
  destruct (Nat.ltb_spec 500 (length (Sync.neobook_messages st ++ [msg])));
    [rewrite length_drop|]; lia.
Qed.

(** X17. Whatever is written through [createPost] and [sendMessage] of the
    synchronous service, the stores stay bounded: a store with at most 51
    posts holds, after any number of creations, the smaller of 51 and the
    number of posts written so far; a store with at most 500 messages never
    holds more than 500. *)
Theorem Sync_stores_bounded (quota : Sync.LocalStorage → bool)
    (st : Sync.LocalStorage) (ps : list Post.t) (ms : list Message.t) :
  (∀ s, quota s = true) →
  (length (Sync.neobook_posts st) ≤ 51 →
   length (Sync.neobook_posts (foldl (Sync.createPost quota) st ps))
   = (length (Sync.neobook_posts st) + length ps) `min` 51)
  ∧ (length (Sync.neobook_messages st) ≤ 500 →
     length (Sync.neobook_messages (foldl (Sync.sendMessage quota) st ms))
     ≤ 500).
Proof.
  intros Hq. split.
  - by apply Sync_createPosts_length.
  - revert st. induction ms as [|m ms IH]; intros st Hst; simpl; [done|].
    apply IH. by apply Sync_sendMessage_messages.
Qed.

Lemma Sync_stores_bounded_witness :
  length (Sync.neobook_posts
            (foldl (Sync.createPost Samples.roomy) Samples.seededSync
               (Samples.postN <$> seq 1 60)))
  = (length (Sync.neobook_posts Samples.seededSync)
     + length (Samples.postN <$> seq 1 60)) `min` 51
  ∧ length (Sync.neobook_messages
              (foldl (Sync.sendMessage Samples.roomy) Samples.syncStore
                 (Samples.mkMessage <$> ["a"; "b"; "c"]))) ≤ 500.
Proof.
  destruct (Sync_stores_bounded Samples.roomy Samples.seededSync
              (Samples.postN <$> seq 1 60) []) as [Hposts _]; [reflexivity|].
  destruct (Sync_stores_bounded Samples.roomy Samples.syncStore
              [] (Samples.mkMessage <$> ["a"; "b"; "c"])) as [_ Hmsgs];
    [reflexivity|].
  split.
  - apply Hposts. simpl. lia.
  - apply Hmsgs. simpl. lia.
Defined.

(** ** Sessions *)

Lemma NoDup_fmap_elem_eq {A B} (f : A → B) (l : list A) (x y : A) :
  NoDup (f <$> l) → x ∈ l → y ∈ l → f x = f y → x = y.
Proof.
  induction l as [|a l IH]; intros Hnd Hx Hy Hf; [by apply not_elem_of_nil in Hx|].
  rewrite fmap_cons in Hnd. apply NoDup_cons in Hnd as [Ha Hnd].
  apply elem_of_cons in Hx as [->|Hx]; apply elem_of_cons in Hy as [->|Hy].
  - done.
  - exfalso. apply Ha. rewrite Hf. by apply list_elem_of_fmap_2.
  - exfalso. apply Ha. rewrite <- Hf. by apply list_elem_of_fmap_2.
  - by apply IH.
Qed.

(** X18. After a resolved [login] of a user with a non-empty id,
    [observeAuth] reports a stored user with the id of the user that
    [login] returned, and that very user when the stored ids are pairwise
    distinct; after [logout] it reports nobody. *)
Theorem observeAuth_after_login (quota : AsyncLocal.LocalStorage → bool)
    (st st' : AsyncLocal.LocalStorage) (userId password : string)
    (found : User.t) :
  AsyncLocal.login quota st userId password = (st', Resolved found) →
  User.id found ≠ "" →
  (∃ u, AsyncLocal.observeAuth st' = Some u ∧ User.id u = User.id found)
  ∧ (NoDup (User.id <$> AsyncLocal.neobook_users st) →
     AsyncLocal.observeAuth st' = Some found)
  ∧ AsyncLocal.observeAuth (AsyncLocal.logout st') = None.
Proof.
  unfold AsyncLocal.login, AsyncLocal.setStored.
  destruct (find (λ u, User.userId u = userId) (AsyncLocal.neobook_users st))
    as [f|] eqn:Hf; [|done].
  destruct (quota _); [|done]. intros [= <- <-] Hid.
  apply find_Some_lookup in Hf as [i Hi].
  apply list_find_Some in Hi as (Hin%list_elem_of_lookup_2 & _ & _).
  unfold AsyncLocal.observeAuth. simpl.
  rewrite bool_decide_eq_false_2 by done.
  destruct (list_find_elem_of (λ u, User.id u = User.id f)
              (AsyncLocal.neobook_users st) f Hin eq_refl) as [[j u] Hu].
  unfold find. rewrite Hu. simpl.
  apply list_find_Some in Hu as (Hu%list_elem_of_lookup_2 & Huid & _).
  split_and!; [by exists u | | done].
  intros Hnd. f_equal. by eapply NoDup_fmap_elem_eq.
Qed.

Lemma observeAuth_after_login_witness :
  (∃ u, AsyncLocal.observeAuth
          (fst (AsyncLocal.login Samples.roomy Samples.asyncStore
                  "bob1" "any")) = Some u
        ∧ User.id u = User.id Samples.bob)
  ∧ (NoDup (User.id <$> AsyncLocal.neobook_users Samples.asyncStore) →
     AsyncLocal.observeAuth
       (fst (AsyncLocal.login Samples.roomy Samples.asyncStore "bob1" "any"))
     = Some Samples.bob)
  ∧ AsyncLocal.observeAuth
      (AsyncLocal.logout
         (fst (AsyncLocal.login Samples.roomy Samples.asyncStore
                 "bob1" "any"))) = None.
Proof.
  apply (observeAuth_after_login Samples.roomy Samples.asyncStore _
           "bob1" "any" Samples.bob); [reflexivity | discriminate].
Defined.

(** X19. The sign-in form of the synchronous variant does check the
    password.  Right after [createUser] has stored a record, signing in with
    its handle and its password returns that record, and signing in with
    its handle and any other password fails. *)
Theorem Sync_createUser_then_login (quota : Sync.LocalStorage → bool)
    (st : Sync.LocalStorage) (user : User.t) (password : string) :
  snd (Sync.createUser quota st user) = true →
  User.password user = Some password →
  Auth.login (fst (Sync.createUser quota st user)) (User.userId user) password
    = Some user
  ∧ ∀ other, other ≠ password →
      Auth.login (fst (Sync.createUser quota st user)) (User.userId user)
        other = None.
Proof.
  unfold Sync.createUser, Sync.getUsers, Sync.saveUsers, Sync.safeSetItem.
  case_bool_decide as Htaken; [done|].
  destruct (quota _); [|done]. intros _ Hpw.
  unfold Auth.login, Sync.getUsers. cbn [fst Sync.neobook_users Sync.set_users].
  assert (Forall (λ u, User.userId u ≠ User.userId user)
            (Sync.neobook_users st)) as Hfree.
  { apply Forall_forall. intros u Hu Hh. apply Htaken, Exists_exists. eauto. }
  split.
  - apply find_app_None; [|done].
    apply find_None_Forall. eapply Forall_impl; [exact Hfree|].
    simpl. tauto.
  - intros other Hother. apply find_None_Forall.
    apply Forall_app. split.
    + eapply Forall_impl; [exact Hfree|]. simpl. tauto.
    + constructor; [|constructor]. intros [_ Hp]. congruence.
Qed.

Lemma Sync_createUser_then_login_witness :
  Auth.login
    (fst (Sync.createUser Samples.roomy Samples.syncStore Samples.dave))
    "dave1" "pw0" = Some Samples.dave
  ∧ ∀ other, other ≠ "pw0" →
      Auth.login
        (fst (Sync.createUser Samples.roomy Samples.syncStore Samples.dave))
        "dave1" other = None.
Proof.
  apply (Sync_createUser_then_login Samples.roomy Samples.syncStore
           Samples.dave "pw0"); reflexivity.
Defined.

(** ** Pending requests stay clean *)

Lemma requests_push_clean (target : User.t) (fromId : string) :
  NoDup (User.friendRequests target) →
  User.id target ∉ User.friendRequests target →
  fromId ∉ User.friendRequests target →
  User.id target ≠ fromId →
  NoDup (User.friendRequests
           (User.set_friendRequests target
              (User.friendRequests target ++ [fromId])))
  ∧ User.id (User.set_friendRequests target
               (User.friendRequests target ++ [fromId]))
    ∉ User.friendRequests
        (User.set_friendRequests target
           (User.friendRequests target ++ [fromId])).
Proof.
  intros Hnd Hself Hnew Hne. simpl. split.
  - apply NoDup_app. split_and!; [done| |apply NoDup_singleton].
    intros x Hx ->%list_elem_of_singleton. done.
  - rewrite elem_of_app, list_elem_of_singleton. tauto.
Qed.

(** X20. [sendFriendRequest] of both local services keeps the lists of
    pending requests clean: if no stored user has an id twice among their
    pending requests, nor their own id, this is still so afterwards,
    whatever the answer of the call. *)
Theorem sendFriendRequest_keeps_requests_clean :
  (∀ quota st fromId toCustomId,
     Forall (λ u, NoDup (User.friendRequests u)
                  ∧ User.id u ∉ User.friendRequests u)
       (Sync.neobook_users st) →
     Forall (λ u, NoDup (User.friendRequests u)
                  ∧ User.id u ∉ User.friendRequests u)
       (Sync.neobook_users
          (fst (Sync.sendFriendRequest quota st fromId toCustomId))))
  ∧ (∀ quota st fromId toCustomId,
       Forall (λ u, NoDup (User.friendRequests u)
                    ∧ User.id u ∉ User.friendRequests u)
         (AsyncLocal.neobook_users st) →
       Forall (λ u, NoDup (User.friendRequests u)
                    ∧ User.id u ∉ User.friendRequests u)
         (AsyncLocal.neobook_users
            (fst (AsyncLocal.sendFriendRequest quota st fromId toCustomId)))).
Proof.
  split.
  - intros quota st fromId h Hclean.
    unfold Sync.sendFriendRequest, Sync.getUsers, Sync.saveUsers,
      Sync.safeSetItem.
    destruct (list_find (λ u, User.userId u = h) (Sync.neobook_users st))
      as [[ti target]|] eqn:Ht; [|done].
    destruct (find _ _) as [sender|]; [|done].
    case_bool_decide as Hself; [done|].
    destruct (includes (User.friends sender) _); [done|].
    destruct (includes (User.friendRequests target) fromId) eqn:Hreq; [done|].
    apply includes_false in Hreq.
    destruct (quota _); [|done]. simpl.
    apply list_find_Some in Ht as (Hl & _).
    apply Forall_alter; [done|]. intros x Hx [Hnd Hown].
    assert (x = target) as -> by congruence.
    by apply requests_push_clean.
  - intros quota st fromId h Hclean.
    unfold AsyncLocal.sendFriendRequest, AsyncLocal.setStored.
    destruct (find (λ u, User.id u = fromId) (AsyncLocal.neobook_users st))
      as [sender|] eqn:Hs; [|done].
    destruct (list_find (λ u, User.userId u = h) (AsyncLocal.neobook_users st))
      as [[ti target]|] eqn:Ht; [|done].
    case_bool_decide as Hself; [done|].
    destruct (includes (User.friends sender) _); [done|].
    destruct (includes (User.friendRequests target) fromId) eqn:Hreq; [done|].
    apply includes_false in Hreq.
    destruct (quota _); [|done]. cbn [fst AsyncLocal.neobook_users
                                       AsyncLocal.set_users].
    apply find_Some_lookup in Hs as [si Hs].
    apply list_find_Some in Hs as (_ & Hsid & _).
    apply list_find_Some in Ht as (Hl%list_elem_of_lookup_2 & _).
    rewrite Forall_forall in Hclean. destruct (Hclean target Hl) as [Hnd Hown].
    rewrite <- Forall_forall in Hclean.
    assert (User.id target ≠ fromId) as Hne by congruence.
    destruct (findIndex _ _);
      repeat (apply Forall_insert; [|by apply requests_push_clean]); done.
Qed.

Lemma sendFriendRequest_keeps_requests_clean_witness :
  Forall (λ u, NoDup (User.friendRequests u)
               ∧ User.id u ∉ User.friendRequests u)
    (Sync.neobook_users
       (fst (Sync.sendFriendRequest Samples.roomy Samples.syncStore
               "u-carol" "alice1")))
  ∧ Forall (λ u, NoDup (User.friendRequests u)
                 ∧ User.id u ∉ User.friendRequests u)
      (AsyncLocal.neobook_users
         (fst (AsyncLocal.sendFriendRequest Samples.roomy Samples.asyncStore
                 "u-carol" "alice1"))).
Proof.
  destruct sendFriendRequest_keeps_requests_clean as [Hsync Hasync].
  split; [apply Hsync | apply Hasync];
    apply (bool_decide_unpack _); vm_compute; exact I.
Defined.

(** ** Choosing the friends a share goes to *)

(** X21. A click in the share dialog flips the membership of the clicked
    friend in the selection and of nobody else, and a selection without
    duplicates stays without duplicates; so the visibility set of a share
    built from an empty selection never holds an id twice. *)
Theorem toggleFriendSelection_spec (selectedFriends : list string)
    (friendId : string) :
  (friendId ∈ Feed.toggleFriendSelection selectedFriends friendId ↔
   friendId ∉ selectedFriends)
  ∧ (∀ x, x ≠ friendId →
          (x ∈ Feed.toggleFriendSelection selectedFriends friendId ↔
           x ∈ selectedFriends))
  ∧ (NoDup selectedFriends →
     NoDup (Feed.toggleFriendSelection selectedFriends friendId))
  ∧ ∀ clicks, NoDup (foldl Feed.toggleFriendSelection [] clicks).
Proof.
  assert (∀ l f, NoDup l → NoDup (Feed.toggleFriendSelection l f)) as Hnd.
  { intros l f Hl. unfold Feed.toggleFriendSelection.
    destruct (includes l f) eqn:E.
    - by apply NoDup_filter.
    - apply includes_false in E. apply NoDup_app.
      split_and!; [done| |apply NoDup_singleton].
      intros x Hx ->%list_elem_of_singleton. done. }
  unfold Feed.toggleFriendSelection.
  split_and!.
  - destruct (includes selectedFriends friendId) eqn:E.
    + apply includes_true in E. rewrite list_elem_of_filter. tauto.
    + apply includes_false in E.
      rewrite elem_of_app, list_elem_of_singleton. tauto.
  - intros x Hx. destruct (includes selectedFriends friendId).
    + rewrite list_elem_of_filter. tauto.
    + rewrite elem_of_app, list_elem_of_singleton. tauto.
  - apply Hnd.
  - intros clicks.
    assert (∀ l, NoDup l → NoDup (foldl Feed.toggleFriendSelection l clicks))
      as Hall.
    { induction clicks as [|c cs IH]; intros l Hl; simpl; [done|].
      apply IH, Hnd, Hl. }
    apply Hall. constructor.
Qed.

(** ** Deleted users on the friends page *)

(** X22. After a resolved [deleteUser uid] the friends page of any user
    shows, among friends and among pending requests, only stored users
    other than [uid], each under an id taken from the corresponding list:
    the ids left dangling by the deletion are skipped. *)
Theorem Friends_skip_deleted (quota : AsyncLocal.LocalStorage → bool)
    (st st' : AsyncLocal.LocalStorage) (uid : string) (currentUser : User.t) :
  AsyncLocal.deleteUser quota st uid = (st', Resolved ()) →
  (∀ u, u ∈ Friends.myFriends st' currentUser →
        User.id u ≠ uid ∧ u ∈ AsyncLocal.neobook_users st
        ∧ User.id u ∈ User.friends currentUser)
  ∧ (∀ u, u ∈ Friends.friendRequests st' currentUser →
          User.id u ≠ uid ∧ u ∈ AsyncLocal.neobook_users st
          ∧ User.id u ∈ User.friendRequests currentUser).
Proof.
  unfold AsyncLocal.deleteUser, AsyncLocal.setStored.
  destruct (quota _); [|done]. intros [= <-].
  assert (∀ x u,
            AsyncLocal.getUser
              (AsyncLocal.set_users st
                 (filter (λ u, User.id u ≠ uid) (AsyncLocal.neobook_users st)))
              x = Some u →
            User.id u ≠ uid ∧ u ∈ AsyncLocal.neobook_users st ∧ User.id u = x)
    as Hget.
  { intros x u. unfold AsyncLocal.getUser. simpl.
    intros [i Hi]%find_Some_lookup.
    apply list_find_Some in Hi as (Hin%list_elem_of_lookup_2 & Hid & _).
    apply list_elem_of_filter in Hin as [? ?]. done. }
  split; intros u (x & Hx & Hu)%list_elem_of_omap;
    destruct (Hget x u Hu) as (? & ? & ?); subst x; by split_and!.
Qed.

Lemma Friends_skip_deleted_witness :
  (∀ u, u ∈ Friends.myFriends
              (fst (AsyncLocal.deleteUser Samples.roomy Samples.asyncStore
                      "u-bob")) Samples.carol →
        User.id u ≠ "u-bob" ∧ u ∈ AsyncLocal.neobook_users Samples.asyncStore
        ∧ User.id u ∈ User.friends Samples.carol)
  ∧ Friends.myFriends Samples.asyncStore Samples.carol = [Samples.bob]
  ∧ Friends.myFriends
      (fst (AsyncLocal.deleteUser Samples.roomy Samples.asyncStore "u-bob"))
      Samples.carol = [].
Proof.
  split_and!; [|reflexivity..].
  apply (proj1 (Friends_skip_deleted Samples.roomy Samples.asyncStore _
                  "u-bob" Samples.carol eq_refl)).
Defined.

(** ** Accepting twice in the synchronous service *)

(** X23. [acceptFriendRequest] of the synchronous service does nothing when
    either user is not stored.  It adds the friend without looking at the
    list: when the requester is already among the accepter's friends, a
    successful acceptance leaves the requester twice in that list. *)
Theorem Sync_accept_duplicates (quota : Sync.LocalStorage → bool)
    (st : Sync.LocalStorage) (userId requesterId : string) (now : N) :
  (Sync.findUserById st userId = None
   ∨ Sync.findUserById st requesterId = None →
   Sync.acceptFriendRequest quota st userId requesterId now = st)
  ∧ (∀ user,
       (∀ s, quota s = true) →
       Sync.findUserById st userId = Some user →
       is_Some (Sync.findUserById st requesterId) →
       requesterId ∈ User.friends user →
       ∃ fa,
         friendsOf
           (Sync.neobook_users
              (Sync.acceptFriendRequest quota st userId requesterId now))
           userId = Some fa
         ∧ ¬ NoDup fa).
Proof.
  split.
  - unfold Sync.findUserById, find, Sync.acceptFriendRequest, Sync.getUsers.
    destruct (list_find (λ u, User.id u = userId) (Sync.neobook_users st))
      as [[? ?]|];
      destruct (list_find (λ u, User.id u = requesterId)
                  (Sync.neobook_users st)) as [[? ?]|];
      intros [Hnone | Hnone]; done.
  - intros user Hq Huser (ri & r0 & Hb)%find_is_Some_list_find Hin.
    unfold Sync.findUserById, Sync.getUsers in Huser.
    apply find_Some_lookup in Huser as [ui Ha].
    pose proof (Sync_accept_users quota st userId requesterId now ui ri
                  user r0 Hq Ha Hb) as Husers.
    assert (findIndex (λ u, User.id u = userId) (Sync.neobook_users st)
            = Some ui) as Hidx by (apply findIndex_Some_lookup; eauto).
    rewrite <- (findIndex_three
      (λ u, User.set_friends u (User.friends u ++ [requesterId]))
      (λ u, User.set_friends u (User.friends u ++ [userId]))
      (λ u, User.set_friendRequests u
              (filter (λ i, i ≠ requesterId) (User.friendRequests u)))
      ltac:(done) ltac:(done) ltac:(done) userId ui ri ui) in Hidx.
    rewrite <- Husers in Hidx.
    apply findIndex_lookup in Hidx as (ua & Hua & Hfa).
    exists (User.friends ua). unfold friendsOf. rewrite Hfa.
    split; [done|].
    rewrite Husers in Hua. apply list_find_Some in Ha as (Hl & _).
    rewrite list_lookup_alter_eq, list_lookup_alter in Hua.
    assert (∀ l : list string, requesterId ∈ l →
              ¬ NoDup ((l ++ [requesterId]))) as Hdup.
    { intros l Hl' Hnd. apply NoDup_app in Hnd as (_ & Hdis & _).
      apply (Hdis requesterId Hl'). by apply list_elem_of_singleton. }
    case_decide as Hd.
    + subst ri. rewrite list_lookup_alter_eq, Hl in Hua.
      simpl in Hua. injection Hua as <-. simpl.
      intros Hnd. apply NoDup_app in Hnd as (Hnd & _). by eapply Hdup.
    + rewrite list_lookup_alter_eq, Hl in Hua.
      simpl in Hua. injection Hua as <-. simpl. by apply Hdup.
Qed.

Lemma Sync_accept_duplicates_witness :
  ∃ fa,
    friendsOf
      (Sync.neobook_users
         (Sync.acceptFriendRequest Samples.roomy Samples.syncStore
            "u-carol" "u-bob" 7%N)) "u-carol" = Some fa
    ∧ ¬ NoDup fa.
Proof.
  apply (proj2 (Sync_accept_duplicates Samples.roomy Samples.syncStore
                  "u-carol" "u-bob" 7%N) Samples.carol);
    [reflexivity | reflexivity | by eexists |].
  apply list_elem_of_singleton. reflexivity.
Defined.

Lemma SyncFeed_like_comment_witness :
  SyncFeed.handleComment Samples.roomy (λ t, t) Samples.feedStore
    Samples.carol "post-gone" "hello" 5%N 6%N = Samples.feedStore
  ∧ SyncFeed.getPost
      (SyncFeed.handleComment Samples.roomy (λ t, t) Samples.feedStore
         Samples.carol "post-root" "hello" 5%N 6%N) "post-root"
    = Some (Post.set_comments Samples.root
              [Comment.mk "c-5" "u-carol" "hello" 6%N]).
Proof.
  destruct (SyncFeed_like_comment Samples.roomy (λ t, t) Samples.feedStore
              Samples.carol Samples.root "post-gone" "hello" 5%N 6%N)
    as (_ & _ & _ & Hgone & _).
  destruct (SyncFeed_like_comment Samples.roomy (λ t, t) Samples.feedStore
              Samples.carol Samples.root "post-root" "hello" 5%N 6%N)
    as (_ & _ & _ & _ & Hstored).
  split.
  - apply Hgone. reflexivity.
  - apply (Hstored Samples.root); [reflexivity | discriminate | reflexivity].
Defined.
